(** * An Ethereum wallet module over a JSON-RPC transport

    A shallow embedding of the RPC transport ([request]) and of the
    Ethereum wallet operations ([getContract], [getBalance], [createWallet],
    [transfer], [getTokenInfo], [smartContractSend], ...), followed by the
    properties established about them.

    The chain node, the HTTP client and the ethers / ethereumjs libraries are
    external collaborators: they are gathered in one record, [World], over
    which every definition and theorem is parametrised.  Each interaction
    with them is appended to a trace of [Event]s, so that statements such as
    "the nonce is never fetched" are statements about the trace. *)

From Stdlib Require Import String Ascii ZArith QArith List Bool Lia.
From Stdlib Require Import DecimalString HexString.
Import ListNotations.
Open Scope string_scope.
Open Scope Z_scope.
Open Scope list_scope.

Set Implicit Arguments.
Set Warnings "-register-all".

(** ** JavaScript values *)

(** The values a parsed JSON body is made of, plus [undefined], which is
    what reading a missing property yields.  Numbers are the integer-valued
    ones. *)
Inductive Value : Type :=
| VUndefined
| VNull
| VBool (b : bool)
| VNum (n : Z)
| VStr (s : string)
| VArr (items : list Value)
| VObj (fields : list (string * Value)).

(** [!!v]: every value is truthy but [undefined], [null], [false], [0] and
    the empty string. *)
Definition truthy (v : Value) : bool :=
  match v with
  | VUndefined | VNull => false
  | VBool b => b
  | VNum n => negb (n =? 0)
  | VStr s => negb (s =? "")%string
  | VArr _ | VObj _ => true
  end.

(** [typeof v !== 'undefined'] *)
Definition defined (v : Value) : bool :=
  match v with
  | VUndefined => false
  | _ => true
  end.

Fixpoint lookup (k : string) (fields : list (string * Value)) : Value :=
  match fields with
  | [] => VUndefined
  | (k', v) :: rest => if (k =? k')%string then v else lookup k rest
  end.

(** [v.k] for the property names the program reads ([result], [error],
    [message]).  Reading a property of [undefined] or [null] throws a
    TypeError ([None]); a primitive or an array has no such property, so
    the read yields [undefined]. *)
Definition getProp (v : Value) (k : string) : option Value :=
  match v with
  | VUndefined | VNull => None
  | VObj fields => Some (lookup k fields)
  | _ => Some VUndefined
  end.

(** [a || b] on values *)
Definition or_else (a b : Value) : Value := if truthy a then a else b.

(** Optional fields of a payload: an absent field reads as [undefined]. *)
Definition opt_str (o : option string) : Value :=
  match o with Some s => VStr s | None => VUndefined end.

Definition opt_num (o : option Z) : Value :=
  match o with Some n => VNum n | None => VUndefined end.

(** ** Errors, results and promises *)

(** [new Error(x)].  The message of the error is [String(x)], which is [x]
    itself when [x] is a string; the model keeps [x]. *)
Inductive Error : Type :=
| MkError (message : Value).

(** The outcome of a library call that may throw. *)
Inductive Result (A : Type) : Type :=
| Ok (a : A)
| Throw (e : Error).
Arguments Ok {A} a.
Arguments Throw {A} e.

(** The fate of a promise: fulfilled, rejected, or never settled. *)
Inductive Settled (A : Type) : Type :=
| Resolved (a : A)
| Rejected (e : Error)
| Pending.
Arguments Resolved {A} a.
Arguments Rejected {A} e.
Arguments Pending {A}.

(** ** Objects of the libraries *)

Definition BigNumber := Z.
Definition Abi := list Value.
Definition Buffer := list Byte.byte.

Record Provider := { endpoint : string }.

Record Wallet := {
  wallet_address : string;
  wallet_privateKey : string;
  wallet_mnemonic : option string;
  wallet_provider : option Provider
}.

Inductive Runner : Type :=
| BySigner (w : Wallet)
| ByProvider (p : Provider).

Record Contract := {
  contract_address : string;
  contract_abi : Abi;
  contract_runner : Runner
}.

(** The second argument of [parseUnits] / [formatUnits]: a unit name or a
    number of decimals. *)
Inductive UnitSpec : Type :=
| UnitName (name : string)
| UnitDecimals (d : Z).

(** What [args.nonce || nonce] can be: a number of the caller, the promise
    [getTransactionCount] returned (known by how it settles), or
    [undefined]. *)
Inductive NonceField : Type :=
| NonceNumber (n : Z)
| NoncePromise (p : Result Z)
| NonceUndefined.

(** What [args.gasLimit || estimatedGas] can be. *)
Inductive GasLimitField : Type :=
| GasNumber (n : Z)
| GasBig (b : BigNumber).

Record Overrides := {
  ov_gasPrice : BigNumber;
  ov_nonce : NonceField;
  ov_gasLimit : GasLimitField
}.

(** The argument of [wallet.sendTransaction] in [transfer]. *)
Record TransactionRequest := {
  tr_to : string;
  tr_value : BigNumber;
  tr_gasPrice : BigNumber;
  tr_nonce : NonceField;
  tr_data : string
}.

Record RpcBody := {
  jsonrpc : string;
  id : Value;
  method : string;
  params : list Value
}.

Record Common := { common_chainId : Z }.

(** The first argument of [Transaction.fromTxData] in
    [smartContractSend]. *)
Record TxData := {
  td_nonce : Value;
  td_to : string;
  td_gasLimit : Value;
  td_gasPrice : string
}.

Record Tx := {
  tx_data : TxData;
  tx_common : Common;
  tx_signature : option string
}.

(** ** Interactions with the outside *)

Inductive Event : Type :=
| EPost (url : string) (body : RpcBody)
| EGetGasPrice (p : Provider)
| EGetTransactionCount (p : Provider) (address : string)
| EGetBalance (p : Provider) (address : string)
| EGetTransaction (p : Provider) (hash : string)
| EDecimals (c : Contract)
| EBalanceOf (c : Contract) (address : string)
| EName (c : Contract)
| ESymbol (c : Contract)
| ETotalSupply (c : Contract)
| EEstimateGasTransfer (c : Contract) (recipient : string) (amount : BigNumber)
| ETransfer (c : Contract) (recipient : string) (amount : BigNumber)
    (ov : Overrides)
| ESendTransaction (w : Wallet) (tx : TransactionRequest)
| ECreateRandom (path : string)
| EEncrypt (w : Wallet) (password : string)
| EFromTxData (d : TxData) (c : Common)
| ESign (tx : Tx) (key : Buffer).

Definition Trace := list Event.

(** What [axios.post] comes back with: a response whose [data] is the
    parsed body, or a rejection (no connection, a status outside 2xx). *)
Inductive AxiosReply : Type :=
| AxiosResponse (data : Value)
| AxiosRejected (e : Error).

(** The outside world.  A call that reaches the node (or draws randomness)
    answers as a function of the trace so far; a computation of a library is
    a function of its arguments alone. *)
Record World := {
  (* the HTTP client *)
  axios_post : Trace -> string -> RpcBody -> AxiosReply;
  (* ../utils/ethers and ../../abis/erc20.json *)
  provider : string -> Result Provider;
  erc20Abi : Abi;
  (* ethers: provider *)
  provider_getGasPrice : Trace -> Provider -> Result BigNumber;
  provider_getTransactionCount : Trace -> Provider -> string -> Result Z;
  provider_getBalance : Trace -> Provider -> string -> Result BigNumber;
  provider_getTransaction : Trace -> Provider -> string -> Result Value;
  (* ethers: wallets *)
  new_Wallet : option string -> option Provider -> Result Wallet;
  Wallet_createRandom : Trace -> string -> Result Wallet;
  Wallet_fromMnemonic : string -> string -> Result Wallet;
  Wallet_fromEncryptedJson : string -> string -> Result Wallet;
  wallet_encrypt : Trace -> Wallet -> string -> Result string;
  wallet_sendTransaction :
    Trace -> Wallet -> TransactionRequest -> Result Value;
  (* ethers: contracts *)
  new_Contract : string -> Abi -> Runner -> Result Contract;
  contract_decimals : Trace -> Contract -> Result Z;
  contract_balanceOf : Trace -> Contract -> string -> Result BigNumber;
  contract_name : Trace -> Contract -> Result string;
  contract_symbol : Trace -> Contract -> Result string;
  contract_totalSupply : Trace -> Contract -> Result BigNumber;
  contract_estimateGas_transfer :
    Trace -> Contract -> string -> BigNumber -> Result BigNumber;
  contract_transfer :
    Trace -> Contract -> string -> BigNumber -> Overrides -> Result Value;
  (* ethers: units and bytes *)
  parseUnits : string -> UnitSpec -> Result BigNumber;
  parseEther : string -> Result BigNumber;
  formatUnits : BigNumber -> UnitSpec -> Result string;
  formatEther : BigNumber -> string;
  toHexString : BigNumber -> string;
  hexlify_toUtf8Bytes : string -> Result string;
  (* ethers: ABI coder *)
  new_Interface : Abi -> Result Abi;
  encodeFunctionData : Abi -> string -> list Value -> Result string;
  (* ethereumjs *)
  Common_custom : option Z -> Result Common;
  Transaction_fromTxData : TxData -> Common -> Result Tx;
  tx_sign : Tx -> Buffer -> Result Tx;
  tx_serialize : Tx -> Buffer;
  (* the JavaScript runtime; [None] is NaN *)
  Number_toString : Q -> string;
  parseFloat : string -> option Q;
  parseInt : string -> option Z;
  Buffer_from_hex : option string -> Result Buffer;
  Buffer_toString_hex : Buffer -> string
}.

(** ** Asynchronous computations *)

(** An [async] body: from the trace so far to how its promise settles and
    the trace it leaves. *)
Definition Async (A : Type) := Trace -> Settled A * Trace.

Definition ret {A} (a : A) : Async A := fun t => (Resolved a, t).

Definition throw {A} (e : Error) : Async A := fun t => (Rejected e, t).

Definition bind {A B} (m : Async A) (k : A -> Async B) : Async B :=
  fun t =>
    match m t with
    | (Resolved a, t') => k a t'
    | (Rejected e, t') => (Rejected e, t')
    | (Pending, t') => (Pending, t')
    end.

Notation "x <- m ;; k" := (bind m (fun x => k))
  (at level 61, m at next level, right associativity).

(** A library computation: it returns or throws, and leaves no event. *)
Definition lift {A} (r : Result A) : Async A :=
  match r with
  | Ok a => ret a
  | Throw e => throw e
  end.

(** A call to the outside that is started and not awaited: the event is
    recorded, the promise is kept as it will settle. *)
Definition start {A} (ev : Event) (answer : Trace -> Result A)
  : Async (Result A) :=
  fun t => (Resolved (answer t), t ++ [ev]).

(** [await] of a call to the outside. *)
Definition call {A} (ev : Event) (answer : Trace -> Result A) : Async A :=
  r <- start ev answer ;; lift r.

(** [try { body } catch (error) { throw error; }] *)
Definition try_rethrow {A} (body : Async A) : Async A := body.

(** ** The responses of the operations *)

(** Modelled from the spec: [successResponse] of [../utils] is not among the
    sources; "every successful response is wrapped uniformly as
    [{success: true, ...payloadFields}]". *)
Record Response (A : Type) := {
  success : bool;
  payload : A
}.

Definition successResponse {A} (p : A) : Response A :=
  {| success := true; payload := p |}.

(** ** The operations *)

Section Operations.

Variable W : World.

(** *** The RPC transport *)

(** The callback given to [axios.post(url, body).then]: what it does to the
    promise [request] returned.  A TypeError thrown inside the callback
    leaves that promise unsettled, as does a body with no result and no
    truthy [error]. *)
Definition request_settle (data : Value) : Settled Value :=
  match getProp data "result" with
  | None => Pending
  | Some result =>
      if defined result || truthy result then Resolved result
      else
        match getProp data "error" with
        | None => Pending
        | Some error =>
            if truthy error then
              match getProp error "message" with
              | None => Pending
              | Some message => Rejected (MkError (or_else message error))
              end
            else Pending
        end
  end.

(** [request]: the rejection of [axios.post] has no handler, so the promise
    of [request] stays unsettled then. *)
Definition request (url : string) (body : RpcBody) : Async Value :=
  fun t =>
    (match axios_post W t url body with
     | AxiosResponse data => request_settle data
     | AxiosRejected _ => Pending
     end, t ++ [EPost url body]).

(** *** The chain context *)

Record GetContract := {
  gc_rpcUrl : string;
  gc_privateKey : option string;
  gc_contractAddress : option string;
  gc_abi : option Abi
}.

Record ChainContext := {
  contract : option Contract;
  signer : option Wallet;
  gasPrice : BigNumber;
  gas : BigNumber;
  nonce : NonceField;
  providerInstance : Provider
}.

(** [signer.getAddress()] then [providerInstance.getTransactionCount]: the
    promise is stored, not awaited. *)
Definition fetch_nonce (p : Provider) (s : Wallet) : Async NonceField :=
  r <- start (EGetTransactionCount p (wallet_address s))
         (fun t => provider_getTransactionCount W t p (wallet_address s)) ;;
  ret (NoncePromise r).

Definition getContract (a : GetContract) : Async ChainContext :=
  providerInstance <- lift (provider W (gc_rpcUrl a)) ;;
  gasPrice <- call (EGetGasPrice providerInstance)
                (fun t => provider_getGasPrice W t providerInstance) ;;
  let gas := 21000 in
  let contractAbi :=
    match gc_abi a with Some abi => abi | None => erc20Abi W end in
  let privateKey := truthy (opt_str (gc_privateKey a)) in
  let contractAddress := truthy (opt_str (gc_contractAddress a)) in
  let address_of o := match o with Some s => s | None => "" end in
  if privateKey && contractAddress then
    signer <- lift (new_Wallet W (gc_privateKey a) (Some providerInstance)) ;;
    nonce <- fetch_nonce providerInstance signer ;;
    contract <- lift (new_Contract W (address_of (gc_contractAddress a))
                        contractAbi (BySigner signer)) ;;
    ret {| contract := Some contract; signer := Some signer;
           gasPrice := gasPrice; gas := gas; nonce := nonce;
           providerInstance := providerInstance |}
  else if privateKey && negb contractAddress then
    signer <- lift (new_Wallet W (gc_privateKey a) (Some providerInstance)) ;;
    nonce <- fetch_nonce providerInstance signer ;;
    ret {| contract := None; signer := Some signer;
           gasPrice := gasPrice; gas := gas; nonce := nonce;
           providerInstance := providerInstance |}
  else if contractAddress && negb privateKey then
    contract <- lift (new_Contract W (address_of (gc_contractAddress a))
                        contractAbi (ByProvider providerInstance)) ;;
    ret {| contract := Some contract; signer := None;
           gasPrice := gasPrice; gas := gas; nonce := NonceUndefined;
           providerInstance := providerInstance |}
  else
    ret {| contract := None; signer := None;
           gasPrice := gasPrice; gas := gas; nonce := NonceUndefined;
           providerInstance := providerInstance |}.

(** *** Balances *)

Record BalancePayload := {
  bp_address : string;
  bp_network : string;
  bp_rpcUrl : string;
  bp_tokenAddress : option string
}.

Record Balance := { balance : option Q }.

Definition getBalance (a : BalancePayload) : Async (Response Balance) :=
  ctx <- getContract {| gc_rpcUrl := bp_rpcUrl a; gc_privateKey := None;
                        gc_contractAddress := bp_tokenAddress a;
                        gc_abi := None |} ;;
  try_rethrow
    match contract ctx with
    | Some c =>
        decimals <- call (EDecimals c) (fun t => contract_decimals W t c) ;;
        balance <- call (EBalanceOf c (bp_address a))
                     (fun t => contract_balanceOf W t c (bp_address a)) ;;
        formatted <- lift (formatUnits W balance (UnitDecimals decimals)) ;;
        ret (successResponse {| balance := parseFloat W formatted |})
    | None =>
        balance <- call (EGetBalance (providerInstance ctx) (bp_address a))
                     (fun t => provider_getBalance W t (providerInstance ctx)
                                 (bp_address a)) ;;
        ret (successResponse
               {| balance := parseFloat W (formatEther W balance) |})
    end.

(** *** Wallets *)

Record WalletInfo := {
  wi_address : string;
  wi_privateKey : string;
  wi_mnemonic : string
}.

Definition defaultPath : string := "m/44'/60'/0'/0/0".

(** [derivationPath || "m/44'/60'/0'/0/0"] *)
Definition path_or_default (derivationPath : option string) : string :=
  match derivationPath with
  | Some p => if truthy (VStr p) then p else defaultPath
  | None => defaultPath
  end.

(** [wallet.mnemonic.phrase]: a TypeError on a wallet without mnemonic. *)
Definition mnemonic_phrase (w : Wallet) : Result string :=
  match wallet_mnemonic w with
  | Some phrase => Ok phrase
  | None => Throw (MkError (VStr "Cannot read properties of null"))
  end.

Definition wallet_info (w : Wallet) : Async (Response WalletInfo) :=
  phrase <- lift (mnemonic_phrase w) ;;
  ret (successResponse {| wi_address := wallet_address w;
                          wi_privateKey := wallet_privateKey w;
                          wi_mnemonic := phrase |}).

Definition createWallet (derivationPath : option string)
  : Async (Response WalletInfo) :=
  let path := path_or_default derivationPath in
  wallet <- call (ECreateRandom path)
              (fun t => Wallet_createRandom W t path) ;;
  wallet_info wallet.

Record GetAddressFromPrivateKeyPayload := {
  ga_privateKey : string;
  ga_network : string
}.

Definition getAddressFromPrivateKey (args : GetAddressFromPrivateKeyPayload)
  : Async (Response string) :=
  wallet <- lift (new_Wallet W (Some (ga_privateKey args)) None) ;;
  ret (successResponse (wallet_address wallet)).

Definition generateWalletFromMnemonic (mnemonic : string)
    (derivationPath : option string) : Async (Response WalletInfo) :=
  let path := path_or_default derivationPath in
  wallet <- lift (Wallet_fromMnemonic W mnemonic path) ;;
  wallet_info wallet.

(** *** Transfers *)

Record TransferPayload := {
  recipientAddress : string;
  amount : Q;
  network : string;
  rpcUrl : string;
  privateKey : string;
  tp_gasPrice : option string;
  tokenAddress : option string;
  tp_nonce : option Z;
  data : option string;
  gasLimit : option Z
}.

(** [args.gasPrice ? parseUnits(args.gasPrice.toString(), 'gwei') : gasPrice] *)
Definition gasPrice_or (o : option string) (fetched : BigNumber)
  : Async BigNumber :=
  match o with
  | Some s =>
      if truthy (VStr s) then lift (parseUnits W s (UnitName "gwei"))
      else ret fetched
  | None => ret fetched
  end.

(** [args.nonce || nonce] *)
Definition nonce_or (o : option Z) (fetched : NonceField) : NonceField :=
  match o with
  | Some n => if truthy (VNum n) then NonceNumber n else fetched
  | None => fetched
  end.

(** [args.gasLimit || estimatedGas] *)
Definition gasLimit_or (o : option Z) (estimatedGas : BigNumber)
  : GasLimitField :=
  match o with
  | Some n => if truthy (VNum n) then GasNumber n else GasBig estimatedGas
  | None => GasBig estimatedGas
  end.

(** [args.data ? hexlify(toUtf8Bytes(args.data)) : '0x'] *)
Definition data_or (o : option string) : Async string :=
  match o with
  | Some s =>
      if truthy (VStr s) then lift (hexlify_toUtf8Bytes W s) else ret "0x"
  | None => ret "0x"
  end.

Definition transfer (a : TransferPayload) : Async (Response Value) :=
  ctx <- getContract {| gc_rpcUrl := rpcUrl a;
                        gc_privateKey := Some (privateKey a);
                        gc_contractAddress := tokenAddress a;
                        gc_abi := None |} ;;
  wallet <- lift (new_Wallet W (Some (privateKey a))
                    (Some (providerInstance ctx))) ;;
  try_rethrow
    match contract ctx with
    | Some c =>
        decimals <- call (EDecimals c) (fun t => contract_decimals W t c) ;;
        units <- lift (parseUnits W (Number_toString W (amount a))
                         (UnitDecimals decimals)) ;;
        estimatedGas <-
          call (EEstimateGasTransfer c (recipientAddress a) units)
            (fun t => contract_estimateGas_transfer W t c
                        (recipientAddress a) units) ;;
        units' <- lift (parseUnits W (Number_toString W (amount a))
                          (UnitDecimals decimals)) ;;
        price <- gasPrice_or (tp_gasPrice a) (gasPrice ctx) ;;
        let ov := {| ov_gasPrice := price;
                     ov_nonce := nonce_or (tp_nonce a) (nonce ctx);
                     ov_gasLimit := gasLimit_or (gasLimit a) estimatedGas |} in
        tx <- call (ETransfer c (recipientAddress a) units' ov)
                (fun t => contract_transfer W t c (recipientAddress a)
                            units' ov) ;;
        ret (successResponse tx)
    | None =>
        value <- lift (parseEther W (Number_toString W (amount a))) ;;
        price <- gasPrice_or (tp_gasPrice a) (gasPrice ctx) ;;
        payload <- data_or (data a) ;;
        let req := {| tr_to := recipientAddress a;
                      tr_value := value;
                      tr_gasPrice := price;
                      tr_nonce := nonce_or (tp_nonce a) (nonce ctx);
                      tr_data := payload |} in
        tx <- call (ESendTransaction wallet req)
                (fun t => wallet_sendTransaction W t wallet req) ;;
        ret (successResponse tx)
    end.

(** *** Transactions and keystores *)

Record GetTransactionPayload := {
  gt_rpcUrl : string;
  gt_hash : string;
  gt_network : string
}.

Definition getTransaction (a : GetTransactionPayload)
  : Async (Response Value) :=
  ctx <- getContract {| gc_rpcUrl := gt_rpcUrl a; gc_privateKey := None;
                        gc_contractAddress := None; gc_abi := None |} ;;
  try_rethrow
    (tx <- call (EGetTransaction (providerInstance ctx) (gt_hash a))
             (fun t => provider_getTransaction W t (providerInstance ctx)
                         (gt_hash a)) ;;
     ret (successResponse tx)).

Record GetEncryptedJsonFromPrivateKey := {
  ge_password : string;
  ge_privateKey : string;
  ge_network : string
}.

Definition getEncryptedJsonFromPrivateKey
    (args : GetEncryptedJsonFromPrivateKey) : Async (Response string) :=
  wallet <- lift (new_Wallet W (Some (ge_privateKey args)) None) ;;
  json <- call (EEncrypt wallet (ge_password args))
            (fun t => wallet_encrypt W t wallet (ge_password args)) ;;
  ret (successResponse json).

Record GetWalletFromEncryptedjsonPayload := {
  gw_json : string;
  gw_password : string;
  gw_network : string
}.

Record KeyAndAddress := {
  ka_privateKey : string;
  ka_address : string
}.

Definition getWalletFromEncryptedJson
    (args : GetWalletFromEncryptedjsonPayload)
  : Async (Response KeyAndAddress) :=
  wallet <- lift (Wallet_fromEncryptedJson W (gw_json args)
                    (gw_password args)) ;;
  ret (successResponse {| ka_privateKey := wallet_privateKey wallet;
                          ka_address := wallet_address wallet |}).

(** *** Token information *)

Inductive Cluster : Type := MainnetBeta | Testnet | Devnet.

Record IGetTokenInfoPayload := {
  ti_network : string;
  ti_rpcUrl : string;
  ti_address : string;
  ti_cluster : option Cluster
}.

Record ITokenInfo := {
  name : string;
  symbol : string;
  address : string;
  decimals : Z;
  totalSupply : option Z
}.

(** [Promise.all] of the four reads: all four calls are started, in the
    order of the array, before any is awaited; the first one of the array
    to reject rejects the whole. *)
Definition token_reads (c : Contract)
  : Async (string * string * Z * BigNumber) :=
  rn <- start (EName c) (fun t => contract_name W t c) ;;
  rs <- start (ESymbol c) (fun t => contract_symbol W t c) ;;
  rd <- start (EDecimals c) (fun t => contract_decimals W t c) ;;
  rt <- start (ETotalSupply c) (fun t => contract_totalSupply W t c) ;;
  name <- lift rn ;;
  symbol <- lift rs ;;
  decimals <- lift rd ;;
  totalSupply <- lift rt ;;
  ret (name, symbol, decimals, totalSupply).

(** [getTokenInfo]: [None] is the [undefined] of the bare [return]. *)
Definition getTokenInfo (a : IGetTokenInfoPayload)
  : Async (option (Response ITokenInfo)) :=
  ctx <- getContract {| gc_rpcUrl := ti_rpcUrl a; gc_privateKey := None;
                        gc_contractAddress := Some (ti_address a);
                        gc_abi := None |} ;;
  match contract ctx with
  | Some c =>
      reads <- token_reads c ;;
      let '(name, symbol, decimals, totalSupply) := reads in
      formatted <- lift (formatUnits W totalSupply (UnitDecimals decimals)) ;;
      let data := {| name := name; symbol := symbol; decimals := decimals;
                     address := contract_address c;
                     totalSupply := parseInt W formatted |} in
      ret (Some (successResponse data))
  | None => ret None
  end.

(** *** Contract calls, signed here *)

Record ISmartContractCallPayload := {
  sc_rpcUrl : string;
  sc_contractAddress : string;
  sc_method : string;
  sc_params : list Value;
  sc_value : option Z;
  sc_contractAbi : option Abi;
  sc_gasPrice : option string;
  sc_gasLimit : option Z;
  sc_nonce : option Z;
  sc_privateKey : option string;
  sc_chainId : option Z
}.

Definition rpc (m : string) (ps : list Value) : RpcBody :=
  {| jsonrpc := "2.0"; id := VNum 1; method := m; params := ps |}.

Definition estimateGas_body (from to callData : string) : RpcBody :=
  rpc "eth_estimateGas"
    [VObj [("from", VStr from); ("to", VStr to); ("data", VStr callData)]].

Definition getTransactionCount_body (addr : string) : RpcBody :=
  rpc "eth_getTransactionCount" [VStr addr; VStr "latest"].

Definition sendRawTransaction_body (serializedHex : string) : RpcBody :=
  rpc "eth_sendRawTransaction" [VStr serializedHex].

(** [args.gasLimit ? args.gasLimit : estimateGas] *)
Definition sc_gasLimit_or (o : option Z) (estimateGas : Value) : Value :=
  if truthy (opt_num o) then opt_num o else estimateGas.

(** [args.gasPrice || '100'] *)
Definition sc_gasPrice_or (o : option string) : string :=
  match o with
  | Some s => if truthy (VStr s) then s else "100"
  | None => "100"
  end.

Definition smartContractSend (args : ISmartContractCallPayload)
  : Async (Response Value) :=
  try_rethrow
    (abiInterface <-
       lift (new_Interface W
               match sc_contractAbi args with
               | Some abi => abi
               | None => erc20Abi W
               end) ;;
     wallet <- lift (new_Wallet W (sc_privateKey args) None) ;;
     callData <- lift (encodeFunctionData W abiInterface (sc_method args)
                         (sc_params args)) ;;
     estimateGas <-
       request (sc_rpcUrl args)
         (estimateGas_body (wallet_address wallet) (sc_contractAddress args)
            callData) ;;
     nonce <- request (sc_rpcUrl args)
                (getTransactionCount_body (wallet_address wallet)) ;;
     common <- lift (Common_custom W (sc_chainId args)) ;;
     price <- lift (parseUnits W (sc_gasPrice_or (sc_gasPrice args))
                      (UnitName "gwei")) ;;
     let txData := {| td_nonce := nonce;
                      td_to := sc_contractAddress args;
                      td_gasLimit :=
                        sc_gasLimit_or (sc_gasLimit args) estimateGas;
                      td_gasPrice := toHexString W price |} in
     tx <- call (EFromTxData txData common)
             (fun _ => Transaction_fromTxData W txData common) ;;
     key <- lift (Buffer_from_hex W (sc_privateKey args)) ;;
     signedTx <- call (ESign tx key) (fun _ => tx_sign W tx key) ;;
     let serializedHex :=
       String.append "0x" (Buffer_toString_hex W (tx_serialize W signedTx)) in
     txHash <- request (sc_rpcUrl args)
                 (sendRawTransaction_body serializedHex) ;;
     ret (successResponse txHash)).

End Operations.

(** ** Observations on payloads and traces *)

(** The calls made to a token contract by [transfer], the submission among
    them, and the submission of a native transfer. *)
Definition is_token_call (e : Event) : bool :=
  match e with
  | EDecimals _ | EEstimateGasTransfer _ _ _ | ETransfer _ _ _ _ => true
  | _ => false
  end.

Definition is_token_transfer (e : Event) : bool :=
  match e with
  | ETransfer _ _ _ _ => true
  | _ => false
  end.

Definition is_native_transfer (e : Event) : bool :=
  match e with
  | ESendTransaction _ _ => true
  | _ => false
  end.

Definition submissions (es : Trace) : nat :=
  length (filter (fun e => is_token_transfer e || is_native_transfer e) es).

(** A payload with one field replaced. *)
Definition with_data (d : option string) (a : TransferPayload)
  : TransferPayload :=
  {| recipientAddress := recipientAddress a; amount := amount a;
     network := network a; rpcUrl := rpcUrl a; privateKey := privateKey a;
     tp_gasPrice := tp_gasPrice a; tokenAddress := tokenAddress a;
     tp_nonce := tp_nonce a; data := d; gasLimit := gasLimit a |}.

Definition with_gasLimit (g : option Z) (a : TransferPayload)
  : TransferPayload :=
  {| recipientAddress := recipientAddress a; amount := amount a;
     network := network a; rpcUrl := rpcUrl a; privateKey := privateKey a;
     tp_gasPrice := tp_gasPrice a; tokenAddress := tokenAddress a;
     tp_nonce := tp_nonce a; data := data a; gasLimit := g |}.

Definition with_chainId (k : option Z) (a : ISmartContractCallPayload)
  : ISmartContractCallPayload :=
  {| sc_rpcUrl := sc_rpcUrl a; sc_contractAddress := sc_contractAddress a;
     sc_method := sc_method a; sc_params := sc_params a;
     sc_value := sc_value a; sc_contractAbi := sc_contractAbi a;
     sc_gasPrice := sc_gasPrice a; sc_gasLimit := sc_gasLimit a;
     sc_nonce := sc_nonce a; sc_privateKey := sc_privateKey a;
     sc_chainId := k |}.

(** The payloads that carry a [network], with that field replaced. *)
Module OnNetwork.

Definition transfer (n : string) (a : TransferPayload) : TransferPayload :=
  {| recipientAddress := recipientAddress a; amount := amount a;
     network := n; rpcUrl := rpcUrl a; privateKey := privateKey a;
     tp_gasPrice := tp_gasPrice a; tokenAddress := tokenAddress a;
     tp_nonce := tp_nonce a; data := data a; gasLimit := gasLimit a |}.

Definition balance (n : string) (a : BalancePayload) : BalancePayload :=
  {| bp_address := bp_address a; bp_network := n; bp_rpcUrl := bp_rpcUrl a;
     bp_tokenAddress := bp_tokenAddress a |}.

Definition address (n : string) (a : GetAddressFromPrivateKeyPayload)
  : GetAddressFromPrivateKeyPayload :=
  {| ga_privateKey := ga_privateKey a; ga_network := n |}.

Definition transaction (n : string) (a : GetTransactionPayload)
  : GetTransactionPayload :=
  {| gt_rpcUrl := gt_rpcUrl a; gt_hash := gt_hash a; gt_network := n |}.

Definition encrypt (n : string) (a : GetEncryptedJsonFromPrivateKey)
  : GetEncryptedJsonFromPrivateKey :=
  {| ge_password := ge_password a; ge_privateKey := ge_privateKey a;
     ge_network := n |}.

Definition decrypt (n : string) (a : GetWalletFromEncryptedjsonPayload)
  : GetWalletFromEncryptedjsonPayload :=
  {| gw_json := gw_json a; gw_password := gw_password a; gw_network := n |}.

Definition tokenInfo (n : string) (a : IGetTokenInfoPayload)
  : IGetTokenInfoPayload :=
  {| ti_network := n; ti_rpcUrl := ti_rpcUrl a; ti_address := ti_address a;
     ti_cluster := ti_cluster a |}.

End OnNetwork.

(** ** A chain client for tests

    A world with fixed answers, in the manner of the fake chain client of a
    test suite: gas price 20 gwei, transaction count 7, a token with 18
    decimals, an estimate of 52000 gas. *)

Module Fake.

Fixpoint digits (s : string) (acc : Z) : option Z :=
  match s with
  | EmptyString => Some acc
  | String c rest =>
      let n := Z.of_nat (nat_of_ascii c) in
      if (48 <=? n) && (n <=? 57) then digits rest (10 * acc + (n - 48))
      else None
  end.

(** A string of decimal digits, and nothing else. *)
Definition decimal (s : string) : option Z :=
  match s with
  | EmptyString => None
  | _ => digits s 0
  end.

(** The digits a string starts with. *)
Fixpoint leading (s : string) : string :=
  match s with
  | EmptyString => EmptyString
  | String c rest =>
      let n := Z.of_nat (nat_of_ascii c) in
      if (48 <=? n) && (n <=? 57) then String c (leading rest)
      else EmptyString
  end.

Definition show (z : Z) : string := NilZero.string_of_int (Z.to_int z).

Definition failure {A} (msg : string) : Result A := Throw (MkError (VStr msg)).

Definition parse_units (s : string) (u : UnitSpec) : Result BigNumber :=
  match decimal s, u with
  | None, _ => failure "invalid decimal value"
  | Some n, UnitDecimals d =>
      if d <? 0 then failure "invalid unit" else Ok (n * 10 ^ d)
  | Some n, UnitName unit =>
      if (unit =? "gwei")%string then Ok (n * 10 ^ 9)
      else if (unit =? "ether")%string then Ok (n * 10 ^ 18)
      else failure "invalid unit"
  end.

Definition format_units (b : BigNumber) (u : UnitSpec) : Result string :=
  match u with
  | UnitDecimals d =>
      if d <? 0 then failure "invalid unit"
      else Ok (show (b / 10 ^ d) ++ "." ++ show (b mod 10 ^ d))%string
  | UnitName _ => failure "invalid unit"
  end.

Definition number_text (q : Q) : string :=
  match Qden q with
  | 1%positive => show (Qnum q)
  | _ => "NaN"
  end.

Definition make_wallet (key : option string) (p : option Provider)
  : Result Wallet :=
  match key with
  | Some k =>
      if (k =? "")%string then failure "invalid private key"
      else Ok {| wallet_address := "0x5167"; wallet_privateKey := k;
                 wallet_mnemonic := None; wallet_provider := p |}
  | None => failure "invalid private key"
  end.

Definition from_mnemonic (phrase path : string) : Result Wallet :=
  if (phrase =? "")%string then failure "invalid mnemonic"
  else Ok {| wallet_address := ("address of " ++ phrase ++ " at " ++ path)%string;
             wallet_privateKey := ("key of " ++ phrase ++ " at " ++ path)%string;
             wallet_mnemonic := Some phrase; wallet_provider := None |}.

Definition entropy (t : Trace) : string :=
  if Nat.even (length t) then "test test test junk" else "zoo zoo zoo wrong".

Definition answer (result : Value) : AxiosReply :=
  AxiosResponse (VObj [("jsonrpc", VStr "2.0"); ("id", VNum 1);
                       ("result", result)]).

(** The node: every method the program posts has an answer. *)
Definition node (body : RpcBody) : AxiosReply :=
  if (method body =? "eth_estimateGas")%string then answer (VStr "0xcb20")
  else if (method body =? "eth_getTransactionCount")%string
       then answer (VStr "0x7")
  else if (method body =? "eth_sendRawTransaction")%string
       then answer (VStr "0x88df01")
  else AxiosResponse (VObj [("jsonrpc", VStr "2.0"); ("id", VNum 1);
                            ("error", VObj [("code", VNum (-32601));
                                            ("message",
                                             VStr "Method not found")])]).

(** The fake world, over a node to post to. *)
Definition world_over (post : RpcBody -> AxiosReply) : World := {|
  axios_post := fun _ _ body => post body;
  provider := fun url => Ok {| endpoint := url |};
  erc20Abi := [VObj [("name", VStr "transfer"); ("type", VStr "function")]];
  provider_getGasPrice := fun _ _ => Ok (20 * 10 ^ 9);
  provider_getTransactionCount := fun _ _ _ => Ok 7;
  provider_getBalance := fun _ _ _ => Ok (3 * 10 ^ 18);
  provider_getTransaction := fun _ _ h => Ok (VObj [("hash", VStr h)]);
  new_Wallet := make_wallet;
  Wallet_createRandom := fun t path => from_mnemonic (entropy t) path;
  Wallet_fromMnemonic := from_mnemonic;
  Wallet_fromEncryptedJson := fun json _ => make_wallet (Some json) None;
  wallet_encrypt := fun _ w _ => Ok (wallet_privateKey w);
  wallet_sendTransaction := fun _ _ _ => Ok (VObj [("hash", VStr "0x88df01")]);
  new_Contract := fun a abi r =>
    Ok {| contract_address := a; contract_abi := abi; contract_runner := r |};
  contract_decimals := fun _ _ => Ok 18;
  contract_balanceOf := fun _ _ _ => Ok (5 * 10 ^ 18);
  contract_name := fun _ _ => Ok "Token";
  contract_symbol := fun _ _ => Ok "TKN";
  contract_totalSupply := fun _ _ => Ok (1000000 * 10 ^ 18 + 5 * 10 ^ 17);
  contract_estimateGas_transfer := fun _ _ _ _ => Ok 52000;
  contract_transfer := fun _ _ _ _ _ => Ok (VObj [("hash", VStr "0x88df02")]);
  parseUnits := parse_units;
  parseEther := fun s => parse_units s (UnitName "ether");
  formatUnits := format_units;
  formatEther := fun b => (show (b / 10 ^ 18) ++ "." ++ show (b mod 10 ^ 18))%string;
  toHexString := fun b => HexString.of_Z b;
  hexlify_toUtf8Bytes := fun s => Ok ("0x" ++ s)%string;
  new_Interface := fun abi => Ok abi;
  encodeFunctionData := fun _ m _ => Ok ("0x" ++ m)%string;
  Common_custom := fun o =>
    Ok {| common_chainId := match o with Some k => k | None => 0 end |};
  Transaction_fromTxData := fun d c =>
    Ok {| tx_data := d; tx_common := c; tx_signature := None |};
  tx_sign := fun tx _ =>
    Ok {| tx_data := tx_data tx; tx_common := tx_common tx;
          tx_signature := Some "1b" |};
  tx_serialize := fun _ => [];
  Number_toString := number_text;
  parseFloat := fun s => option_map inject_Z (decimal (leading s));
  parseInt := fun s => decimal (leading s);
  Buffer_from_hex := fun o =>
    match o with Some _ => Ok [] | None => failure "not a string" end;
  Buffer_toString_hex := fun _ => "f86c"
|}.

Definition world : World := world_over node.

Definition url : string := "http://localhost:8545".

(** A token transfer whose caller asks for nonce 0. *)
Definition token_transfer_nonce0 : TransferPayload := {|
  recipientAddress := "0xb0b"; amount := 2; network := "ethereum";
  rpcUrl := url; privateKey := "0x01";
  tp_gasPrice := Some "5"; tokenAddress := Some "0x70ce"; tp_nonce := Some 0;
  data := None; gasLimit := Some 60000
|}.

(** A native transfer with the three overrides. *)
Definition native_transfer : TransferPayload := {|
  recipientAddress := "0xb0b"; amount := 2; network := "ethereum";
  rpcUrl := url; privateKey := "0x01";
  tp_gasPrice := Some "5"; tokenAddress := None; tp_nonce := Some 3;
  data := Some "hello"; gasLimit := Some 60000
|}.

(** A transfer whose [tokenAddress] is the empty string. *)
Definition empty_token_transfer : TransferPayload := {|
  recipientAddress := "0xb0b"; amount := 2; network := "ethereum";
  rpcUrl := url; privateKey := "0x01";
  tp_gasPrice := None; tokenAddress := Some ""; tp_nonce := None;
  data := None; gasLimit := None
|}.

Definition contract_call : ISmartContractCallPayload := {|
  sc_rpcUrl := url; sc_contractAddress := "0x70ce"; sc_method := "approve";
  sc_params := [VStr "0xb0b"; VNum 1]; sc_value := None;
  sc_contractAbi := None; sc_gasPrice := Some "3"; sc_gasLimit := Some 90000;
  sc_nonce := None; sc_privateKey := Some "0x01"; sc_chainId := Some 5
|}.

(** The same call with a gas limit of 0 and an empty gas price. *)
Definition contract_call_zero : ISmartContractCallPayload := {|
  sc_rpcUrl := url; sc_contractAddress := "0x70ce"; sc_method := "approve";
  sc_params := [VStr "0xb0b"; VNum 1]; sc_value := None;
  sc_contractAbi := None; sc_gasPrice := Some ""; sc_gasLimit := Some 0;
  sc_nonce := None; sc_privateKey := Some "0x01"; sc_chainId := Some 5
|}.

(** A node whose estimate reverts. *)
Definition reverting (body : RpcBody) : AxiosReply :=
  if (method body =? "eth_estimateGas")%string
  then AxiosResponse (VObj [("jsonrpc", VStr "2.0"); ("id", VNum 1);
                            ("error", VObj [("code", VNum 3);
                                            ("message",
                                             VStr "execution reverted")])])
  else node body.

(** A node that answers 0, and one that answers with neither a result nor
    an error. *)
Definition zero (_ : RpcBody) : AxiosReply := answer (VNum 0).

Definition silent (_ : RpcBody) : AxiosReply :=
  AxiosResponse (VObj [("jsonrpc", VStr "2.0"); ("id", VNum 1)]).

End Fake.

(** ** More payloads and worlds for tests *)

Definition with_value (v : option Z) (a : ISmartContractCallPayload)
  : ISmartContractCallPayload :=
  {| sc_rpcUrl := sc_rpcUrl a; sc_contractAddress := sc_contractAddress a;
     sc_method := sc_method a; sc_params := sc_params a;
     sc_value := v; sc_contractAbi := sc_contractAbi a;
     sc_gasPrice := sc_gasPrice a; sc_gasLimit := sc_gasLimit a;
     sc_nonce := sc_nonce a; sc_privateKey := sc_privateKey a;
     sc_chainId := sc_chainId a |}.

Definition with_sc_nonce (n : option Z) (a : ISmartContractCallPayload)
  : ISmartContractCallPayload :=
  {| sc_rpcUrl := sc_rpcUrl a; sc_contractAddress := sc_contractAddress a;
     sc_method := sc_method a; sc_params := sc_params a;
     sc_value := sc_value a; sc_contractAbi := sc_contractAbi a;
     sc_gasPrice := sc_gasPrice a; sc_gasLimit := sc_gasLimit a;
     sc_nonce := n; sc_privateKey := sc_privateKey a;
     sc_chainId := sc_chainId a |}.



Definition is_broadcast (e : Event) : bool :=
  match e with
  | EPost _ body => (method body =? "eth_sendRawTransaction")%string
  | _ => false
  end.

Module Offline.

(** The fake world with a node that does not give its gas price. *)
Definition world : World := {|
  axios_post := axios_post Fake.world;
  provider := provider Fake.world;
  erc20Abi := erc20Abi Fake.world;
  provider_getGasPrice := fun _ _ => Fake.failure "could not detect network";
  provider_getTransactionCount := provider_getTransactionCount Fake.world;
  provider_getBalance := provider_getBalance Fake.world;
  provider_getTransaction := provider_getTransaction Fake.world;
  new_Wallet := new_Wallet Fake.world;
  Wallet_createRandom := Wallet_createRandom Fake.world;
  Wallet_fromMnemonic := Wallet_fromMnemonic Fake.world;
  Wallet_fromEncryptedJson := Wallet_fromEncryptedJson Fake.world;
  wallet_encrypt := wallet_encrypt Fake.world;
  wallet_sendTransaction := wallet_sendTransaction Fake.world;
  new_Contract := new_Contract Fake.world;
  contract_decimals := contract_decimals Fake.world;
  contract_balanceOf := contract_balanceOf Fake.world;
  contract_name := contract_name Fake.world;
  contract_symbol := contract_symbol Fake.world;
  contract_totalSupply := contract_totalSupply Fake.world;
  contract_estimateGas_transfer := contract_estimateGas_transfer Fake.world;
  contract_transfer := contract_transfer Fake.world;
  parseUnits := parseUnits Fake.world;
  parseEther := parseEther Fake.world;
  formatUnits := formatUnits Fake.world;
  formatEther := formatEther Fake.world;
  toHexString := toHexString Fake.world;
  hexlify_toUtf8Bytes := hexlify_toUtf8Bytes Fake.world;
  new_Interface := new_Interface Fake.world;
  encodeFunctionData := encodeFunctionData Fake.world;
  Common_custom := Common_custom Fake.world;
  Transaction_fromTxData := Transaction_fromTxData Fake.world;
  tx_sign := tx_sign Fake.world;
  tx_serialize := tx_serialize Fake.world;
  Number_toString := Number_toString Fake.world;
  parseFloat := parseFloat Fake.world;
  parseInt := parseInt Fake.world;
  Buffer_from_hex := Buffer_from_hex Fake.world;
  Buffer_toString_hex := Buffer_toString_hex Fake.world
|}.

End Offline.

Module Sample.

(** A token transfer that leaves gas price, nonce and gas limit to the
    node. *)
Definition plain_token_transfer : TransferPayload := {|
  recipientAddress := "0xb0b"; amount := 2; network := "ethereum";
  rpcUrl := Fake.url; privateKey := "0x01";
  tp_gasPrice := None; tokenAddress := Some "0x70ce"; tp_nonce := None;
  data := Some "ignored"; gasLimit := None
|}.


Definition native_balance : BalancePayload := {|
  bp_address := "0xb0b"; bp_network := "ethereum"; bp_rpcUrl := Fake.url;
  bp_tokenAddress := None
|}.

Definition token : IGetTokenInfoPayload := {|
  ti_network := "ethereum"; ti_rpcUrl := Fake.url; ti_address := "0x70ce";
  ti_cluster := None
|}.


Definition signer : Wallet := {|
  wallet_address := "0x5167"; wallet_privateKey := "0x01";
  wallet_mnemonic := None; wallet_provider := Some {| endpoint := Fake.url |}
|}.

Definition token_contract (r : Runner) : Contract := {|
  contract_address := "0x70ce"; contract_abi := erc20Abi Fake.world;
  contract_runner := r
|}.

End Sample.

(** * Properties *)

(** ** The monad and the trace *)

Lemma lift_ok {A} (r : Result A) (a : A) (t : Trace) :
  r = Ok a -> lift r t = (Resolved a, t).
Proof. intros ->. reflexivity. Qed.

Lemma call_ok {A} (ev : Event) (answer : Trace -> Result A) (a : A)
    (t : Trace) :
  answer t = Ok a -> call ev answer t = (Resolved a, t ++ [ev]).
Proof. intros H. unfold call, bind, start. rewrite H. reflexivity. Qed.

Lemma call_throw {A} (ev : Event) (answer : Trace -> Result A) (e : Error)
    (t : Trace) :
  answer t = Throw e -> call ev answer t = (Rejected e, t ++ [ev]).
Proof. intros H. unfold call, bind, start. rewrite H. reflexivity. Qed.

Lemma bind_resolved {A B} (m : Async A) (k : A -> Async B) (a : A)
    (t t' : Trace) :
  m t = (Resolved a, t') -> bind m k t = k a t'.
Proof. intros H. unfold bind. rewrite H. reflexivity. Qed.

(** What a run added to the trace it started from. *)
Lemma emitted_unique (t es es' : Trace) : t ++ es = t ++ es' -> es' = es.
Proof. intros H. apply app_inv_head in H. congruence. Qed.

Lemma emitted_nil (t es : Trace) : t = t ++ es -> es = [].
Proof.
  intros H. rewrite <- (app_nil_r t) in H at 1. now apply emitted_unique in H.
Qed.

(** Brings [H : trace = t ++ emitted] to [emitted = ...]. *)
Ltac emitted_in H :=
  simpl in H; repeat rewrite <- app_assoc in H; simpl in H;
  first [ apply emitted_nil in H | apply emitted_unique in H ].

(** Case analysis on the next answer of the world. *)
Ltac next_answer :=
  match goal with
  | |- context [match ?x with Ok _ => _ | Throw _ => _ end] =>
      destruct x eqn:?
  | |- context [match ?x with AxiosResponse _ => _ | AxiosRejected _ => _ end] =>
      destruct x eqn:?
  | |- context [match ?x with Resolved _ => _ | Rejected _ => _ | Pending => _ end] =>
      destruct x eqn:?
  end; simpl.

(** ** The RPC transport *)

Lemma request_trace (W : World) (url : string) (body : RpcBody) (t : Trace) :
  snd (request W url body t) = t ++ [EPost url body].
Proof. reflexivity. Qed.

(** A body with an [error] and no [result] rejects with
    [error.message || error]. *)
Lemma request_settle_error (fields : list (string * Value))
    (error message : Value) :
  lookup "result" fields = VUndefined ->
  lookup "error" fields = error ->
  truthy error = true ->
  getProp error "message" = Some message ->
  request_settle (VObj fields) = Rejected (MkError (or_else message error)).
Proof.
  intros Hr He Ht Hm. unfold request_settle. simpl.
  rewrite Hr, He. simpl. rewrite Ht, Hm. reflexivity.
Qed.

(** C6. Whenever the body of the response has a [result] that is not
    [undefined] -- [0], [""], [false] and [null] included -- [request]
    resolves, with that very value. *)
Theorem request_defined_result_resolves :
  forall (W : World) (t : Trace) (url : string) (body : RpcBody)
         (fields : list (string * Value)) (result : Value),
    axios_post W t url body = AxiosResponse (VObj fields) ->
    lookup "result" fields = result ->
    defined result = true ->
    request W url body t = (Resolved result, t ++ [EPost url body]).
Proof.
  intros W t url body fields result Hpost Hres Hdef.
  unfold request. rewrite Hpost. unfold request_settle. simpl.
  rewrite Hres, Hdef. reflexivity.
Qed.

Lemma request_defined_result_resolves_witness :
  truthy (VNum 0) = false /\
  request (Fake.world_over Fake.zero) Fake.url (rpc "eth_blockNumber" []) []
  = (Resolved (VNum 0), [EPost Fake.url (rpc "eth_blockNumber" [])]).
Proof.
  split; [reflexivity |].
  apply (@request_defined_result_resolves (Fake.world_over Fake.zero) []
           Fake.url (rpc "eth_blockNumber" [])
           [("jsonrpc", VStr "2.0"); ("id", VNum 1); ("result", VNum 0)]
           (VNum 0)); reflexivity.
Defined.

(** C7. When the body of the response has no [result] and no truthy
    [error], the promise of [request] is neither resolved nor rejected: the
    callback falls through both tests. *)
Theorem request_without_result_or_error_never_settles :
  forall (W : World) (t : Trace) (url : string) (body : RpcBody)
         (fields : list (string * Value)),
    axios_post W t url body = AxiosResponse (VObj fields) ->
    lookup "result" fields = VUndefined ->
    truthy (lookup "error" fields) = false ->
    request W url body t = (Pending, t ++ [EPost url body]).
Proof.
  intros W t url body fields Hpost Hres Herr.
  unfold request. rewrite Hpost. unfold request_settle. simpl.
  rewrite Hres. simpl. rewrite Herr. reflexivity.
Qed.

Lemma request_without_result_or_error_never_settles_witness :
  request (Fake.world_over Fake.silent) Fake.url (rpc "eth_blockNumber" []) []
  = (Pending, [EPost Fake.url (rpc "eth_blockNumber" [])]).
Proof.
  apply (@request_without_result_or_error_never_settles
           (Fake.world_over Fake.silent) [] Fake.url (rpc "eth_blockNumber" [])
           [("jsonrpc", VStr "2.0"); ("id", VNum 1)]); reflexivity.
Defined.

(** ** Contract calls *)

(** C3. When the answer to [eth_estimateGas] is an error envelope
    [{error: {message}}], [smartContractSend] rejects with that message, and
    the post of the estimate is the only thing it did: the nonce is not
    fetched, nothing is built, signed or broadcast. *)
Theorem smartContractSend_estimateGas_error_aborts :
  forall (W : World) (args : ISmartContractCallPayload) (t : Trace)
         (abiInterface : Abi) (wallet : Wallet) (callData : string)
         (fields errorFields : list (string * Value)) (msg : string),
    new_Interface W
      match sc_contractAbi args with
      | Some abi => abi
      | None => erc20Abi W
      end = Ok abiInterface ->
    new_Wallet W (sc_privateKey args) None = Ok wallet ->
    encodeFunctionData W abiInterface (sc_method args) (sc_params args)
    = Ok callData ->
    axios_post W t (sc_rpcUrl args)
      (estimateGas_body (wallet_address wallet) (sc_contractAddress args)
         callData)
    = AxiosResponse (VObj fields) ->
    lookup "result" fields = VUndefined ->
    lookup "error" fields = VObj errorFields ->
    lookup "message" errorFields = VStr msg ->
    msg <> "" ->
    smartContractSend W args t
    = (Rejected (MkError (VStr msg)),
       t ++ [EPost (sc_rpcUrl args)
               (estimateGas_body (wallet_address wallet)
                  (sc_contractAddress args) callData)]).
Proof.
  intros W args t abiInterface wallet callData fields errorFields msg
    Habi Hwallet Hdata Hpost Hres Herr Hmsg Hne.
  unfold smartContractSend, try_rethrow, bind.
  rewrite Habi. simpl. rewrite Hwallet. simpl. rewrite Hdata. simpl.
  unfold request. rewrite Hpost.
  rewrite (@request_settle_error fields (VObj errorFields) (VStr msg));
    try assumption; try reflexivity.
  - unfold or_else. simpl.
    destruct (String.eqb_spec msg ""); [contradiction | reflexivity].
  - simpl. now rewrite Hmsg.
Qed.

Lemma smartContractSend_estimateGas_error_aborts_witness :
  smartContractSend (Fake.world_over Fake.reverting) Fake.contract_call []
  = (Rejected (MkError (VStr "execution reverted")),
     [EPost Fake.url (estimateGas_body "0x5167" "0x70ce" "0xapprove")]).
Proof.
  apply (@smartContractSend_estimateGas_error_aborts
           (Fake.world_over Fake.reverting) Fake.contract_call []
           (erc20Abi Fake.world)
           {| wallet_address := "0x5167"; wallet_privateKey := "0x01";
              wallet_mnemonic := None; wallet_provider := None |}
           "0xapprove"
           [("jsonrpc", VStr "2.0"); ("id", VNum 1);
            ("error", VObj [("code", VNum 3);
                            ("message", VStr "execution reverted")])]
           [("code", VNum 3); ("message", VStr "execution reverted")]
           "execution reverted");
    try reflexivity.
  discriminate.
Defined.

(** Case analysis on the next answer of the world, in a hypothesis. *)
Ltac next_answer_in H :=
  match type of H with
  | context [match ?x with Ok _ => _ | Throw _ => _ end] =>
      destruct x eqn:?
  | context [match ?x with AxiosResponse _ => _ | AxiosRejected _ => _ end] =>
      destruct x eqn:?
  | context [match ?x with Resolved _ => _ | Rejected _ => _ | Pending => _ end] =>
      destruct x eqn:?
  end; simpl in H.

(** The gas price [smartContractSend] converts: the one of the caller
    unless it is absent or empty. *)
Lemma sc_gasPrice_or_spec (o : option string) :
  sc_gasPrice_or o
  = match o with
    | Some s => if (s =? "")%string then "100" else s
    | None => "100"
    end.
Proof.
  destruct o as [s |]; [| reflexivity].
  unfold sc_gasPrice_or. simpl. now destruct (s =? "")%string.
Qed.

(** The gas limit [smartContractSend] builds with: the one of the caller
    unless it is absent or 0. *)
Lemma sc_gasLimit_or_spec (o : option Z) (estimateGas : Value) :
  sc_gasLimit_or o estimateGas
  = match o with
    | Some g => if g =? 0 then estimateGas else VNum g
    | None => estimateGas
    end.
Proof.
  destruct o as [g |]; [| reflexivity].
  unfold sc_gasLimit_or. simpl. now destruct (g =? 0).
Qed.

(** C4, as the code has it. The transaction [smartContractSend] builds is
    addressed to [contractAddress]; its nonce is what
    [eth_getTransactionCount(address, "latest")] resolved to; its gas limit
    is the override of the caller when there is one and it is not 0, and
    the result of [eth_estimateGas] otherwise; its gas price is the override
    of the caller when there is one and it is not empty, and ["100"]
    otherwise, converted from gwei; and it is built over the [Common] made
    from the [chainId] of the request. *)
Theorem smartContractSend_built_transaction :
  forall (W : World) (args : ISmartContractCallPayload) (t : Trace)
         (emitted : Trace) (d : TxData) (c : Common),
    snd (smartContractSend W args t) = t ++ emitted ->
    In (EFromTxData d c) emitted ->
    exists (abiInterface : Abi) (wallet : Wallet) (callData : string)
           (estimateGas nonce : Value) (price : BigNumber) (t1 t2 : Trace),
      new_Interface W
        match sc_contractAbi args with
        | Some abi => abi
        | None => erc20Abi W
        end = Ok abiInterface /\
      new_Wallet W (sc_privateKey args) None = Ok wallet /\
      encodeFunctionData W abiInterface (sc_method args) (sc_params args)
      = Ok callData /\
      request W (sc_rpcUrl args)
        (estimateGas_body (wallet_address wallet) (sc_contractAddress args)
           callData) t = (Resolved estimateGas, t1) /\
      request W (sc_rpcUrl args)
        (getTransactionCount_body (wallet_address wallet)) t1
      = (Resolved nonce, t2) /\
      Common_custom W (sc_chainId args) = Ok c /\
      parseUnits W
        match sc_gasPrice args with
        | Some s => if (s =? "")%string then "100" else s
        | None => "100"
        end (UnitName "gwei") = Ok price /\
      td_nonce d = nonce /\
      td_to d = sc_contractAddress args /\
      td_gasLimit d
      = match sc_gasLimit args with
        | Some g => if g =? 0 then estimateGas else VNum g
        | None => estimateGas
        end /\
      td_gasPrice d = toHexString W price.
Proof.
  intros W args t emitted d c Hrun Hin.
  rewrite <- sc_gasPrice_or_spec.
  unfold smartContractSend, try_rethrow, bind, lift, call, start, bind, lift,
    request, ret, throw in Hrun.
  simpl in Hrun.
  repeat next_answer_in Hrun.
  all: emitted_in Hrun; subst emitted; simpl in Hin.
  all: repeat (destruct Hin as [Hin | Hin]; try discriminate Hin);
    try contradiction.
  all: inversion Hin; subst; clear Hin.
  all: do 8 eexists; repeat split.
  all: first
    [ reflexivity
    | eassumption
    | apply sc_gasLimit_or_spec
    | unfold request;
      repeat match goal with
        | H : axios_post _ _ _ _ = _ |- _ => rewrite H
        end;
      repeat match goal with
        | H : request_settle _ = _ |- _ => rewrite H
        end;
      reflexivity ].
Qed.

Lemma smartContractSend_built_transaction_witness :
  exists (abiInterface : Abi) (wallet : Wallet) (callData : string)
         (estimateGas nonce : Value) (price : BigNumber) (t1 t2 : Trace),
    new_Interface Fake.world (erc20Abi Fake.world) = Ok abiInterface /\
    new_Wallet Fake.world (Some "0x01") None = Ok wallet /\
    encodeFunctionData Fake.world abiInterface "approve"
      [VStr "0xb0b"; VNum 1] = Ok callData /\
    request Fake.world Fake.url
      (estimateGas_body (wallet_address wallet) "0x70ce" callData) []
    = (Resolved estimateGas, t1) /\
    request Fake.world Fake.url
      (getTransactionCount_body (wallet_address wallet)) t1
    = (Resolved nonce, t2) /\
    Common_custom Fake.world (Some 5) = Ok {| common_chainId := 5 |} /\
    parseUnits Fake.world "3" (UnitName "gwei") = Ok price /\
    VStr "0x7" = nonce /\
    "0x70ce" = "0x70ce" /\
    VNum 90000 = VNum 90000 /\
    "0xb2d05e00" = toHexString Fake.world price.
Proof.
  apply (@smartContractSend_built_transaction Fake.world Fake.contract_call
           [] (snd (smartContractSend Fake.world Fake.contract_call []))
           {| td_nonce := VStr "0x7"; td_to := "0x70ce";
              td_gasLimit := VNum 90000; td_gasPrice := "0xb2d05e00" |}
           {| common_chainId := 5 |}).
  - reflexivity.
  - vm_compute. right. right. left. reflexivity.
Defined.

(** C4 as it is worded fails on a gas limit of 0 and on an empty gas price:
    both are supplied, and the transaction is built with the estimate and
    with 100 gwei. *)
Lemma smartContractSend_falsy_overrides_not_used :
  sc_gasLimit Fake.contract_call_zero = Some 0 /\
  sc_gasPrice Fake.contract_call_zero = Some "" /\
  exists (d : TxData) (c : Common),
    In (EFromTxData d c)
      (snd (smartContractSend Fake.world Fake.contract_call_zero [])) /\
    td_gasLimit d <> VNum 0 /\
    td_gasLimit d = VStr "0xcb20" /\
    td_gasPrice d = toHexString Fake.world (100 * 10 ^ 9) /\
    parseUnits Fake.world "" (UnitName "gwei")
    = Throw (MkError (VStr "invalid decimal value")).
Proof.
  split; [reflexivity |]. split; [reflexivity |].
  exists {| td_nonce := VStr "0x7"; td_to := "0x70ce";
            td_gasLimit := VStr "0xcb20"; td_gasPrice := "0x174876e800" |},
         {| common_chainId := 5 |}.
  split; [vm_compute; right; right; left; reflexivity |].
  split; [discriminate |]. repeat split.
Qed.

(** The chain id reaches the run through [Common.custom] alone: whatever
    chain id the library makes the same [Common] of gives the same run.
    [smartContractSend] has no test of its own on [args.chainId]. *)
Lemma smartContractSend_chainId_through_Common (W : World)
    (args : ISmartContractCallPayload) (k : option Z) (t : Trace) :
  Common_custom W (sc_chainId args) = Common_custom W k ->
  smartContractSend W (with_chainId k args) t = smartContractSend W args t.
Proof.
  intros H. unfold smartContractSend, with_chainId. simpl.
  rewrite H. reflexivity.
Qed.

(** ** Transfers *)

Lemma nonce_or_spec (o : option Z) (fetched : NonceField) :
  nonce_or o fetched
  = match o with
    | Some n => if n =? 0 then fetched else NonceNumber n
    | None => fetched
    end.
Proof.
  destruct o as [n |]; [| reflexivity].
  unfold nonce_or. simpl. now destruct (n =? 0).
Qed.

(** A nonce of 0 asked by the caller gives way to the fetched one. *)
Lemma nonce_or_zero (fetched : NonceField) : nonce_or (Some 0) fetched = fetched.
Proof. reflexivity. Qed.

(** Whether [getContract] binds a contract is decided by the contract
    address alone: it does when the address is a non-empty string. *)
Lemma getContract_binding (W : World) (a : GetContract) (t t' : Trace)
    (ctx : ChainContext) :
  getContract W a t = (Resolved ctx, t') ->
  (if truthy (opt_str (gc_contractAddress a)) then contract ctx <> None
   else contract ctx = None).
Proof.
  unfold getContract, fetch_nonce, bind, lift, call, start, bind, lift, ret,
    throw.
  intros H. simpl in H.
  destruct (truthy (opt_str (gc_privateKey a)));
    destruct (truthy (opt_str (gc_contractAddress a))); simpl in H.
  all: repeat next_answer_in H.
  all: inversion H; subst; simpl; congruence.
Qed.

Ltac unfold_transfer_in H :=
  unfold transfer, getContract, fetch_nonce, gasPrice_or, data_or,
    try_rethrow, bind, lift, call, start, bind, lift, ret, throw in H;
  simpl in H.

Ltac unfold_transfer :=
  unfold transfer, getContract, fetch_nonce, gasPrice_or, data_or,
    try_rethrow, bind, lift, call, start, bind, lift, ret, throw;
  simpl.

(** On the token path the [data] of the payload is not read. *)
Lemma transfer_token_ignores_data (W : World) (a : TransferPayload)
    (d : option string) (t : Trace) :
  truthy (opt_str (tokenAddress a)) = true ->
  transfer W (with_data d a) t = transfer W a t.
Proof.
  intros Htoken. unfold_transfer. rewrite Htoken.
  destruct (negb (privateKey a =? "")%string); simpl.
  all: destruct (tp_gasPrice a) as [price |];
    [destruct (negb (price =? "")%string) |].
  all: repeat next_answer; try reflexivity.
Qed.

(** On the native path the [gasLimit] of the payload is not read. *)
Lemma transfer_native_ignores_gasLimit (W : World) (a : TransferPayload)
    (g : option Z) (t : Trace) :
  truthy (opt_str (tokenAddress a)) = false ->
  transfer W (with_gasLimit g a) t = transfer W a t.
Proof.
  intros Htoken. unfold_transfer. rewrite Htoken.
  destruct (negb (privateKey a =? "")%string); simpl.
  all: destruct (tp_gasPrice a) as [price |];
    [destruct (negb (price =? "")%string) |].
  all: repeat next_answer; try reflexivity.
Qed.

(** C2, as the code has it. [transfer] takes one path, chosen by
    [tokenAddress] being a non-empty string: with one, it calls the token
    contract only, never [sendTransaction], and does not read [data];
    without one (absent, or empty) it makes a native transfer and no call
    to a token contract.  At most one transaction is submitted, and exactly
    one when [transfer] resolves. *)
Theorem transfer_selects_one_path :
  forall (W : World) (a : TransferPayload) (t emitted : Trace),
    snd (transfer W a t) = t ++ emitted ->
    (submissions emitted <= 1)%nat /\
    (forall r, fst (transfer W a t) = Resolved r ->
               submissions emitted = 1%nat) /\
    (if truthy (opt_str (tokenAddress a))
     then existsb is_native_transfer emitted = false /\
          forall d, transfer W (with_data d a) t = transfer W a t
     else existsb is_token_call emitted = false).
Proof.
  intros W a t emitted Hrun.
  assert (Hmain :
    (submissions emitted <= 1)%nat /\
    (forall r, fst (transfer W a t) = Resolved r ->
               submissions emitted = 1%nat) /\
    (if truthy (opt_str (tokenAddress a))
     then existsb is_native_transfer emitted = false
     else existsb is_token_call emitted = false)).
  { destruct (transfer W a t) as [res tr] eqn:Heq. simpl in Hrun. subst tr.
    simpl fst. unfold_transfer_in Heq.
    destruct (negb (privateKey a =? "")%string);
      destruct (truthy (opt_str (tokenAddress a))); simpl in Heq.
    all: destruct (tp_gasPrice a) as [price |];
      [destruct (negb (price =? "")%string) |].
    all: destruct (data a) as [text |];
      [destruct (negb (text =? "")%string) |].
    all: repeat next_answer_in Heq.
    all: apply pair_equal_spec in Heq; destruct Heq as [Hres Htr];
      emitted_in Htr; subst emitted res.
    all: unfold submissions; simpl; repeat split; auto; intros; discriminate. }
  destruct Hmain as (Hmost & Hone & Hpath).
  split; [exact Hmost |]. split; [exact Hone |].
  destruct (truthy (opt_str (tokenAddress a))) eqn:Htoken; [| exact Hpath].
  split; [exact Hpath |].
  intros d. now apply transfer_token_ignores_data.
Qed.

Lemma transfer_selects_one_path_witness :
  let emitted := snd (transfer Fake.world Fake.token_transfer_nonce0 []) in
  (submissions emitted <= 1)%nat /\
  (forall r, fst (transfer Fake.world Fake.token_transfer_nonce0 [])
             = Resolved r -> submissions emitted = 1%nat) /\
  existsb is_native_transfer emitted = false /\
  forall d, transfer Fake.world (with_data d Fake.token_transfer_nonce0) []
            = transfer Fake.world Fake.token_transfer_nonce0 [].
Proof.
  apply (@transfer_selects_one_path Fake.world Fake.token_transfer_nonce0 []
           (snd (transfer Fake.world Fake.token_transfer_nonce0 []))).
  reflexivity.
Defined.

(** C2 as it is worded fails on a [tokenAddress] that is present and empty:
    the transfer is a native one. *)
Lemma transfer_empty_tokenAddress_goes_native :
  tokenAddress Fake.empty_token_transfer = Some "" /\
  existsb is_native_transfer
    (snd (transfer Fake.world Fake.empty_token_transfer [])) = true /\
  existsb is_token_call
    (snd (transfer Fake.world Fake.empty_token_transfer [])) = false.
Proof. repeat split. Qed.

(** Overrides that are not 0 and not empty are the ones submitted: on the
    token path all three, on the native path the gas price and the nonce
    (the request of a native transfer has no gas limit). *)
Lemma transfer_truthy_overrides_used (W : World) (a : TransferPayload)
    (t emitted : Trace) (price : string) (n g : Z) :
  snd (transfer W a t) = t ++ emitted ->
  tp_gasPrice a = Some price -> price <> "" ->
  tp_nonce a = Some n -> n <> 0 ->
  gasLimit a = Some g -> g <> 0 ->
  (forall c recipient units ov,
      In (ETransfer c recipient units ov) emitted ->
      parseUnits W price (UnitName "gwei") = Ok (ov_gasPrice ov) /\
      ov_nonce ov = NonceNumber n /\
      ov_gasLimit ov = GasNumber g) /\
  (forall w req,
      In (ESendTransaction w req) emitted ->
      parseUnits W price (UnitName "gwei") = Ok (tr_gasPrice req) /\
      tr_nonce req = NonceNumber n).
Proof.
  intros Hrun Hprice Hpne Hnonce Hnne Hgas Hgne.
  unfold_transfer_in Hrun.
  rewrite Hprice, Hnonce, Hgas in Hrun.
  unfold nonce_or, gasLimit_or in Hrun. simpl in Hrun.
  destruct (String.eqb_spec price ""); [contradiction |].
  destruct (Z.eqb_spec n 0); [contradiction |].
  destruct (Z.eqb_spec g 0); [contradiction |].
  simpl in Hrun.
  destruct (negb (privateKey a =? "")%string);
    destruct (truthy (opt_str (tokenAddress a))); simpl in Hrun.
  all: destruct (data a) as [text |];
    [destruct (negb (text =? "")%string) |].
  all: repeat next_answer_in Hrun.
  all: emitted_in Hrun; subst emitted.
  all: split; intros; simpl in *;
    repeat match goal with
      | H : _ \/ _ |- _ => destruct H as [H | H]; try discriminate H
      | H : False |- _ => contradiction
      end.
  all: match goal with
       | H : _ = _ :> Event |- _ => inversion H; subst; clear H
       end; simpl; auto.
Qed.

(** C1. Two transfers whose caller supplies gas price, nonce and gas
    limit, against a node that counts 7 transactions.  The native one is
    submitted without the gas limit of the caller: the request has no such
    field, and the run is the one of the payload without [gasLimit].  The
    token one, whose caller asks for nonce 0, is submitted with the fetched
    count instead. *)
Theorem transfer_overrides_dropped :
  (tokenAddress Fake.native_transfer = None /\
   gasLimit Fake.native_transfer = Some 60000 /\
   (exists (w : Wallet) (r : Response Value) (t : Trace),
       transfer Fake.world Fake.native_transfer [] = (Resolved r, t) /\
       submissions t = 1%nat /\
       In (ESendTransaction w
             {| tr_to := "0xb0b"; tr_value := 2 * 10 ^ 18;
                tr_gasPrice := 5 * 10 ^ 9; tr_nonce := NonceNumber 3;
                tr_data := "0xhello" |}) t) /\
   (forall g : option Z,
       transfer Fake.world (with_gasLimit g Fake.native_transfer) []
       = transfer Fake.world Fake.native_transfer [])) /\
  (tp_nonce Fake.token_transfer_nonce0 = Some 0 /\
   exists (c : Contract) (units : BigNumber) (ov : Overrides)
          (r : Response Value) (t : Trace),
     transfer Fake.world Fake.token_transfer_nonce0 [] = (Resolved r, t) /\
     In (ETransfer c "0xb0b" units ov) t /\
     ov_gasPrice ov = 5 * 10 ^ 9 /\
     ov_gasLimit ov = GasNumber 60000 /\
     ov_nonce ov = NoncePromise (Ok 7) /\
     ov_nonce ov <> NonceNumber 0).
Proof.
  split.
  - split; [reflexivity |]. split; [reflexivity |]. split.
    + eexists _, _, _. split; [vm_compute; reflexivity |].
      split; [reflexivity |]. right. right. left. reflexivity.
    + intros g. now apply transfer_native_ignores_gasLimit.
  - split; [reflexivity |].
    eexists _, _, _, _, _. split; [vm_compute; reflexivity |].
    split; [right; right; right; right; left; reflexivity |].
    repeat split. discriminate.
Qed.

(** ** Token information *)

(** The context [getTokenInfo] resolves has no contract exactly when the
    address of the payload is the empty string. *)
Lemma getTokenInfo_binding (W : World) (a : IGetTokenInfoPayload)
    (t t' : Trace) (ctx : ChainContext) :
  getContract W {| gc_rpcUrl := ti_rpcUrl a; gc_privateKey := None;
                   gc_contractAddress := Some (ti_address a);
                   gc_abi := None |} t = (Resolved ctx, t') ->
  (contract ctx = None <-> ti_address a = "").
Proof.
  intros H. apply getContract_binding in H. simpl in H.
  destruct (String.eqb_spec (ti_address a) ""); simpl in H.
  - tauto.
  - split; [intros Hc; contradiction | intros He; contradiction].
Qed.



(** ** Wallets *)

Section Roundtrip.

Variable W : World.

(** What the library is relied on for: the wallet [createRandom] makes at a
    path carries a phrase, and [fromMnemonic] on that phrase at that path
    makes a wallet of the same address and key. *)
Hypothesis createRandom_fromMnemonic :
  forall (t : Trace) (path : string) (w : Wallet),
    Wallet_createRandom W t path = Ok w ->
    exists (phrase : string) (w' : Wallet),
      wallet_mnemonic w = Some phrase /\
      Wallet_fromMnemonic W phrase path = Ok w' /\
      wallet_mnemonic w' = Some phrase /\
      wallet_address w' = wallet_address w /\
      wallet_privateKey w' = wallet_privateKey w.

(** C9. The phrase [createWallet] returns, given back to
    [generateWalletFromMnemonic] with the same derivation path argument
    (the same path, or none on both sides), yields the same address and the
    same private key. *)
Theorem createWallet_generateWalletFromMnemonic_roundtrip :
  forall (derivationPath : option string) (t t' : Trace)
         (created : Response WalletInfo),
    createWallet W derivationPath t = (Resolved created, t') ->
    forall t2 : Trace,
    exists restored : Response WalletInfo,
      generateWalletFromMnemonic W (wi_mnemonic (payload created))
        derivationPath t2 = (Resolved restored, t2) /\
      wi_address (payload restored) = wi_address (payload created) /\
      wi_privateKey (payload restored) = wi_privateKey (payload created) /\
      wi_mnemonic (payload restored) = wi_mnemonic (payload created).
Proof.
  intros derivationPath t t' created Hcreate t2.
  unfold createWallet, wallet_info, mnemonic_phrase, bind, call, start, bind,
    lift, ret, throw in Hcreate.
  simpl in Hcreate.
  destruct (Wallet_createRandom W t (path_or_default derivationPath))
    as [w | e] eqn:Hrandom; simpl in Hcreate; [| discriminate].
  destruct (createRandom_fromMnemonic _ _ Hrandom)
    as (phrase & w' & Hphrase & Hfrom & Hphrase' & Haddr & Hkey).
  rewrite Hphrase in Hcreate. simpl in Hcreate.
  injection Hcreate as Hcreated _. subst created. simpl.
  unfold generateWalletFromMnemonic, wallet_info, mnemonic_phrase, bind, lift,
    ret, throw.
  rewrite Hfrom. simpl. rewrite Hphrase'. simpl.
  eexists. split; [reflexivity |]. simpl. auto.
Qed.

End Roundtrip.

Lemma fake_createRandom_fromMnemonic :
  forall (t : Trace) (path : string) (w : Wallet),
    Wallet_createRandom Fake.world t path = Ok w ->
    exists (phrase : string) (w' : Wallet),
      wallet_mnemonic w = Some phrase /\
      Wallet_fromMnemonic Fake.world phrase path = Ok w' /\
      wallet_mnemonic w' = Some phrase /\
      wallet_address w' = wallet_address w /\
      wallet_privateKey w' = wallet_privateKey w.
Proof.
  intros t path w H. simpl in H. unfold Fake.entropy in H.
  destruct (Nat.even (length t)); simpl in H; injection H as <-;
    eexists _, _; simpl; repeat split.
Defined.

Lemma createWallet_generateWalletFromMnemonic_roundtrip_witness :
  exists restored : Response WalletInfo,
    generateWalletFromMnemonic Fake.world "test test test junk" None []
    = (Resolved restored, []) /\
    wi_address (payload restored)
    = "address of test test test junk at m/44'/60'/0'/0/0" /\
    wi_privateKey (payload restored)
    = "key of test test test junk at m/44'/60'/0'/0/0" /\
    wi_mnemonic (payload restored) = "test test test junk".
Proof.
  apply (@createWallet_generateWalletFromMnemonic_roundtrip Fake.world
           fake_createRandom_fromMnemonic None []
           [ECreateRandom defaultPath]
           (successResponse
              {| wi_address :=
                   "address of test test test junk at m/44'/60'/0'/0/0";
                 wi_privateKey :=
                   "key of test test test junk at m/44'/60'/0'/0/0";
                 wi_mnemonic := "test test test junk" |})
           eq_refl []).
Defined.

(** Both operations fall back on the same path. *)
Lemma default_path_shared :
  path_or_default None = "m/44'/60'/0'/0/0" /\
  path_or_default (Some "") = "m/44'/60'/0'/0/0".
Proof. split; reflexivity. Qed.

(** ** The [network] field *)

(** C10. No operation reads [network]: replacing it in the payload of any
    operation whose payload has one leaves the settlement of the promise
    and the trace as they were, in every world and from every trace.  (The
    other three operations, [createWallet], [generateWalletFromMnemonic]
    and [smartContractSend], are given no [network].) *)
Theorem network_noninterference :
  forall (W : World) (n : string) (t : Trace),
    (forall a, getBalance W (OnNetwork.balance n a) t = getBalance W a t) /\
    (forall a, transfer W (OnNetwork.transfer n a) t = transfer W a t) /\
    (forall a, getTransaction W (OnNetwork.transaction n a) t
               = getTransaction W a t) /\
    (forall a, getAddressFromPrivateKey W (OnNetwork.address n a) t
               = getAddressFromPrivateKey W a t) /\
    (forall a, getEncryptedJsonFromPrivateKey W (OnNetwork.encrypt n a) t
               = getEncryptedJsonFromPrivateKey W a t) /\
    (forall a, getWalletFromEncryptedJson W (OnNetwork.decrypt n a) t
               = getWalletFromEncryptedJson W a t) /\
    (forall a, getTokenInfo W (OnNetwork.tokenInfo n a) t
               = getTokenInfo W a t).
Proof.
  intros W n t. repeat split; intros []; reflexivity.
Qed.

(** * Further properties *)

(** ** The RPC transport, in full *)

(** X1. How [request] settles on a response, whatever its body: it
    resolves with [v] exactly when the body has a [result] [v] that is not
    [undefined]; it rejects exactly when the body has no [result] and a
    truthy [error], and then with [error.message || error]; in every other
    case -- a body that is [null], or one with neither -- it never
    settles. *)
Theorem request_settles_iff :
  forall (W : World) (t : Trace) (url : string) (body : RpcBody)
         (data : Value),
    axios_post W t url body = AxiosResponse data ->
    (forall v, fst (request W url body t) = Resolved v <->
               getProp data "result" = Some v /\ defined v = true) /\
    (forall e, fst (request W url body t) = Rejected e <->
               exists error message,
                 getProp data "result" = Some VUndefined /\
                 getProp data "error" = Some error /\
                 truthy error = true /\
                 getProp error "message" = Some message /\
                 e = MkError (or_else message error)) /\
    (fst (request W url body t) = Pending <->
       getProp data "result" = None \/
       (getProp data "result" = Some VUndefined /\
        exists error, getProp data "error" = Some error /\
                      truthy error = false)).
Proof.
  intros W t url body data Hpost.
  unfold request. rewrite Hpost. simpl fst. unfold request_settle.
  assert (Hnone : getProp data "result" = None -> getProp data "error" = None)
    by (destruct data; simpl; congruence).
  assert (Hsome : forall r, getProp data "result" = Some r ->
                            exists er, getProp data "error" = Some er)
    by (destruct data; simpl; try discriminate; eauto).
  destruct (getProp data "result") as [r |] eqn:Hr.
  - destruct (Hsome r eq_refl) as [er Her]. rewrite Her.
    destruct (defined r) eqn:Hdef; simpl.
    { split; [| split].
      - intros v; split.
        + intros H. injection H as <-. auto.
        + intros [H _]. congruence.
      - intros e; split; [discriminate |].
        intros (? & ? & H & _). injection H as ->. discriminate.
      - split; [discriminate |].
        intros [H | [H _]]; [discriminate |].
        injection H as ->. discriminate. }
    assert (r = VUndefined) as -> by (destruct r; simpl in *; congruence).
    simpl.
    destruct (truthy er) eqn:Htr.
    + assert (Hm : exists m, getProp er "message" = Some m)
        by (destruct er; simpl in *; try discriminate; eauto).
      destruct Hm as [m Hm]. rewrite Hm.
      split; [| split].
      * intros v; split; [discriminate |].
        intros [H Hd]. injection H as <-. discriminate.
      * intros e; split.
        -- intros H. injection H as <-. exists er, m. auto.
        -- intros (er' & m' & _ & H1 & _ & H2 & ->).
           injection H1 as <-. rewrite Hm in H2. injection H2 as <-.
           reflexivity.
      * split; [discriminate |].
        intros [H | (_ & er' & H1 & H2)]; [discriminate |].
        injection H1 as <-. congruence.
    + split; [| split].
      * intros v; split; [discriminate |].
        intros [H Hd]. injection H as <-. discriminate.
      * intros e; split; [discriminate |].
        intros (er' & m' & _ & H1 & H2 & _). injection H1 as <-. congruence.
      * split; [| reflexivity]. intros _. right. split; [reflexivity |].
        exists er. auto.
  - split; [| split].
    + intros v; split; [discriminate | intros [H _]; discriminate].
    + intros e; split; [discriminate |].
      intros (? & ? & H & _). discriminate.
    + split; [auto | reflexivity].
Qed.

Lemma request_settles_iff_witness :
  fst (request (Fake.world_over Fake.reverting) Fake.url
         (estimateGas_body "0x5167" "0x70ce" "0xapprove") [])
  = Rejected (MkError (VStr "execution reverted")).
Proof.
  apply (proj2 (proj1 (proj2
    (@request_settles_iff (Fake.world_over Fake.reverting) [] Fake.url
       (estimateGas_body "0x5167" "0x70ce" "0xapprove")
       (VObj [("jsonrpc", VStr "2.0"); ("id", VNum 1);
              ("error", VObj [("code", VNum 3);
                              ("message", VStr "execution reverted")])])
       eq_refl))
    (MkError (VStr "execution reverted")))).
  exists (VObj [("code", VNum 3); ("message", VStr "execution reverted")]),
         (VStr "execution reverted").
  repeat split.
Defined.

(** ** The chain context, in full *)



(** X3. Every operation that goes through [getContract] needs the gas
    price of the node, whether it uses it or not: when that fetch fails,
    [getBalance], [getTransaction], [getTokenInfo] and [transfer] -- even
    with a gas price of the caller -- reject with its error, having asked
    the node nothing else. *)
Theorem gas_price_failure_rejects_all :
  forall (W : World) (t : Trace) (url : string) (p : Provider) (e : Error),
    provider W url = Ok p ->
    provider_getGasPrice W t p = Throw e ->
    (forall a, bp_rpcUrl a = url ->
               getBalance W a t = (Rejected e, t ++ [EGetGasPrice p])) /\
    (forall a, gt_rpcUrl a = url ->
               getTransaction W a t = (Rejected e, t ++ [EGetGasPrice p])) /\
    (forall a, ti_rpcUrl a = url ->
               getTokenInfo W a t = (Rejected e, t ++ [EGetGasPrice p])) /\
    (forall a, rpcUrl a = url ->
               transfer W a t = (Rejected e, t ++ [EGetGasPrice p])).
Proof.
  intros W t url p e Hp Hgas.
  assert (Hctx : forall a, gc_rpcUrl a = url ->
                           getContract W a t = (Rejected e, t ++ [EGetGasPrice p])).
  { intros a <-. unfold getContract, bind, call, start, bind, lift, ret, throw.
    rewrite Hp. simpl. rewrite Hgas. reflexivity. }
  repeat split; intros a Hurl.
  - unfold getBalance, bind. now rewrite Hctx.
  - unfold getTransaction, bind. now rewrite Hctx.
  - unfold getTokenInfo, bind. now rewrite Hctx.
  - unfold transfer, bind. now rewrite Hctx.
Qed.

Lemma gas_price_failure_rejects_all_witness :
  transfer Offline.world Fake.native_transfer []
  = (Rejected (MkError (VStr "could not detect network")),
     [EGetGasPrice {| endpoint := Fake.url |}]) /\
  tp_gasPrice Fake.native_transfer = Some "5".
Proof.
  split; [| reflexivity].
  apply (proj2 (proj2 (proj2
    (@gas_price_failure_rejects_all Offline.world [] Fake.url
       {| endpoint := Fake.url |}
       (MkError (VStr "could not detect network")) eq_refl eq_refl)))
    Fake.native_transfer eq_refl).
Defined.

(** Membership in a trace that is known event by event. *)
Ltac in_cases :=
  simpl in *;
  repeat match goal with
    | H : _ \/ _ |- _ => destruct H as [H | H]; try discriminate H
    | H : False |- _ => contradiction
    end;
  try match goal with
    | H : _ = _ :> Event |- _ => inversion H; subst; clear H
    end.

(** ** Balances *)



(** ** Token information, in full *)

(** X5. Once a contract is bound, [getTokenInfo] starts its four reads
    together -- [name], [symbol], [decimals], [totalSupply], in that order
    -- whatever any of them answers: a failing read does not keep the
    later ones from being issued, and nothing else is asked of the node. *)
Theorem getTokenInfo_issues_four_reads :
  forall (W : World) (a : IGetTokenInfoPayload) (t t' : Trace)
         (ctx : ChainContext) (c : Contract),
    getContract W {| gc_rpcUrl := ti_rpcUrl a; gc_privateKey := None;
                     gc_contractAddress := Some (ti_address a);
                     gc_abi := None |} t = (Resolved ctx, t') ->
    contract ctx = Some c ->
    snd (getTokenInfo W a t)
    = t' ++ [EName c; ESymbol c; EDecimals c; ETotalSupply c].
Proof.
  intros W a t t' ctx c Hctx Hc.
  unfold getTokenInfo. erewrite bind_resolved by exact Hctx. rewrite Hc.
  unfold token_reads, bind, start, lift, ret, throw. simpl.
  repeat next_answer.
  all: repeat rewrite <- app_assoc; reflexivity.
Qed.

Lemma getTokenInfo_issues_four_reads_witness :
  let c := Sample.token_contract (ByProvider {| endpoint := Fake.url |}) in
  snd (getTokenInfo Fake.world Sample.token [])
  = [EGetGasPrice {| endpoint := Fake.url |}]
    ++ [EName c; ESymbol c; EDecimals c; ETotalSupply c].
Proof.
  intros c.
  apply (@getTokenInfo_issues_four_reads Fake.world Sample.token []
           [EGetGasPrice {| endpoint := Fake.url |}]
           {| contract := Some c; signer := None; gasPrice := 20 * 10 ^ 9;
              gas := 21000; nonce := NonceUndefined;
              providerInstance := {| endpoint := Fake.url |} |}
           c eq_refl eq_refl).
Defined.

(** X6. What [getTokenInfo] resolves with, when it does not resolve with
    [undefined], is about the contract at the address of the payload: the
    [address] it reports is the one of the contract that [new Contract]
    made for that address with the ERC-20 ABI, read through the provider,
    without signer; and its name, symbol and decimals are answers of that
    contract. *)
Theorem getTokenInfo_reports_the_contract :
  forall (W : World) (a : IGetTokenInfoPayload) (t t' : Trace)
         (r : Response ITokenInfo),
    getTokenInfo W a t = (Resolved (Some r), t') ->
    exists (p : Provider) (c : Contract) (t1 t2 t3 t4 : Trace)
           (supply : BigNumber) (formatted : string),
      provider W (ti_rpcUrl a) = Ok p /\
      new_Contract W (ti_address a) (erc20Abi W) (ByProvider p) = Ok c /\
      ti_address a <> "" /\
      success r = true /\
      address (payload r) = contract_address c /\
      contract_name W t1 c = Ok (name (payload r)) /\
      contract_symbol W t2 c = Ok (symbol (payload r)) /\
      contract_decimals W t3 c = Ok (decimals (payload r)) /\
      contract_totalSupply W t4 c = Ok supply /\
      formatUnits W supply (UnitDecimals (decimals (payload r)))
      = Ok formatted /\
      totalSupply (payload r) = parseInt W formatted.
Proof.
  intros W a t t' r H.
  unfold getTokenInfo, token_reads, getContract, fetch_nonce, bind, lift,
    call, start, bind, lift, ret, throw in H.
  simpl in H.
  destruct (String.eqb_spec (ti_address a) ""); simpl in H.
  all: repeat next_answer_in H.
  all: try discriminate H.
  all: injection H as <- _; simpl.
  all: do 8 eexists; repeat split; eauto.
Qed.

Lemma getTokenInfo_reports_the_contract_witness :
  exists (p : Provider) (c : Contract) (t1 t2 t3 t4 : Trace)
         (supply : BigNumber) (formatted : string),
    provider Fake.world Fake.url = Ok p /\
    new_Contract Fake.world "0x70ce" (erc20Abi Fake.world) (ByProvider p)
    = Ok c /\
    "0x70ce" <> "" /\
    true = true /\
    "0x70ce" = contract_address c /\
    contract_name Fake.world t1 c = Ok "Token" /\
    contract_symbol Fake.world t2 c = Ok "TKN" /\
    contract_decimals Fake.world t3 c = Ok 18 /\
    contract_totalSupply Fake.world t4 c = Ok supply /\
    formatUnits Fake.world supply (UnitDecimals 18) = Ok formatted /\
    Some 1000000 = parseInt Fake.world formatted.
Proof.
  apply (@getTokenInfo_reports_the_contract Fake.world Sample.token []
           (snd (getTokenInfo Fake.world Sample.token []))
           (successResponse
              {| name := "Token"; symbol := "TKN"; address := "0x70ce";
                 decimals := 18; totalSupply := Some 1000000 |})).
  reflexivity.
Defined.

(** ** Transfers, in full *)

(** X7. A token transfer is submitted only after its gas has been
    estimated, and for what was estimated: every [transfer] call on the
    contract follows a successful [estimateGas.transfer] with the same
    contract, recipient and amount; the recipient is the one of the
    payload, the amount is the payload's amount parsed at the decimals the
    contract answered, and the contract is bound to the address of the
    payload. *)
Theorem transfer_submits_what_it_estimated :
  forall (W : World) (a : TransferPayload) (t emitted : Trace)
         (c : Contract) (recipient : string) (units : BigNumber)
         (ov : Overrides),
    snd (transfer W a t) = t ++ emitted ->
    In (ETransfer c recipient units ov) emitted ->
    recipient = recipientAddress a /\
    In (EDecimals c) emitted /\
    In (EEstimateGasTransfer c recipient units) emitted /\
    (exists address abi runner,
        tokenAddress a = Some address /\ address <> "" /\
        new_Contract W address abi runner = Ok c) /\
    (exists t0 d,
        contract_decimals W t0 c = Ok d /\
        parseUnits W (Number_toString W (amount a)) (UnitDecimals d)
        = Ok units) /\
    (exists t1 estimate,
        contract_estimateGas_transfer W t1 c recipient units = Ok estimate).
Proof.
  intros W a t emitted c recipient units ov Hrun Hin.
  unfold_transfer_in Hrun.
  destruct (tokenAddress a) as [address |]; simpl in Hrun;
    [destruct (String.eqb_spec address "") |]; simpl in Hrun.
  all: destruct (negb (privateKey a =? "")%string); simpl in Hrun.
  all: destruct (tp_gasPrice a) as [price |];
    [destruct (negb (price =? "")%string) |].
  all: destruct (data a) as [text |];
    [destruct (negb (text =? "")%string) |].
  all: repeat next_answer_in Hrun.
  all: emitted_in Hrun; subst emitted.
  all: in_cases.
  all: repeat split; eauto 10.
Qed.

Lemma transfer_submits_what_it_estimated_witness :
  let c := Sample.token_contract (BySigner Sample.signer) in
  "0xb0b" = recipientAddress Sample.plain_token_transfer /\
  In (EDecimals c) (snd (transfer Fake.world Sample.plain_token_transfer [])) /\
  In (EEstimateGasTransfer c "0xb0b" (2 * 10 ^ 18))
    (snd (transfer Fake.world Sample.plain_token_transfer [])) /\
  (exists address abi runner,
      tokenAddress Sample.plain_token_transfer = Some address /\
      address <> "" /\
      new_Contract Fake.world address abi runner = Ok c) /\
  (exists t0 d,
      contract_decimals Fake.world t0 c = Ok d /\
      parseUnits Fake.world
        (Number_toString Fake.world (amount Sample.plain_token_transfer))
        (UnitDecimals d) = Ok (2 * 10 ^ 18)) /\
  (exists t1 estimate,
      contract_estimateGas_transfer Fake.world t1 c "0xb0b" (2 * 10 ^ 18)
      = Ok estimate).
Proof.
  intros c.
  apply (@transfer_submits_what_it_estimated Fake.world
           Sample.plain_token_transfer []
           (snd (transfer Fake.world Sample.plain_token_transfer []))
           c "0xb0b" (2 * 10 ^ 18)
           {| ov_gasPrice := 20 * 10 ^ 9; ov_nonce := NoncePromise (Ok 7);
              ov_gasLimit := GasBig 52000 |}).
  - reflexivity.
  - vm_compute. do 4 right. left. reflexivity.
Defined.

(** A library computation asked twice answered the same. *)
Ltac same_answers :=
  repeat match goal with
    | H : Ok _ = Ok _ |- _ => injection H as H; subst
    | H : Ok _ = Throw _ |- _ => discriminate H
    | H : Throw _ = Ok _ |- _ => discriminate H
    end.

Lemma gasLimit_or_spec (o : option Z) (estimatedGas : BigNumber) :
  gasLimit_or o estimatedGas
  = match o with
    | Some g => if g =? 0 then GasBig estimatedGas else GasNumber g
    | None => GasBig estimatedGas
    end.
Proof.
  destruct o as [g |]; [| reflexivity].
  unfold gasLimit_or. simpl. now destruct (g =? 0).
Qed.

(** X8. The overrides of a token transfer, field by field.  With a signing
    key, the call submitted carries: as gas price, the caller's one
    converted from gwei when it is given and not empty, else the price the
    node gave; as nonce, the caller's one when it is given and not 0, else
    the promise of the transaction count of the signer; as gas limit, the
    caller's one when it is given and not 0, else the estimate. *)
Theorem transfer_token_overrides_or_defaults :
  forall (W : World) (a : TransferPayload) (t emitted : Trace)
         (c : Contract) (recipient : string) (units : BigNumber)
         (ov : Overrides),
    snd (transfer W a t) = t ++ emitted ->
    In (ETransfer c recipient units ov) emitted ->
    privateKey a <> "" ->
    exists (p : Provider) (s : Wallet) (fetched estimate : BigNumber)
           (t1 : Trace),
      provider W (rpcUrl a) = Ok p /\
      provider_getGasPrice W t p = Ok fetched /\
      new_Wallet W (Some (privateKey a)) (Some p) = Ok s /\
      contract_estimateGas_transfer W t1 c recipient units = Ok estimate /\
      match tp_gasPrice a with
      | Some price =>
          if (price =? "")%string then ov_gasPrice ov = fetched
          else parseUnits W price (UnitName "gwei") = Ok (ov_gasPrice ov)
      | None => ov_gasPrice ov = fetched
      end /\
      ov_nonce ov
      = match tp_nonce a with
        | Some n =>
            if n =? 0
            then NoncePromise
                   (provider_getTransactionCount W (t ++ [EGetGasPrice p]) p
                      (wallet_address s))
            else NonceNumber n
        | None =>
            NoncePromise
              (provider_getTransactionCount W (t ++ [EGetGasPrice p]) p
                 (wallet_address s))
        end /\
      ov_gasLimit ov
      = match gasLimit a with
        | Some g => if g =? 0 then GasBig estimate else GasNumber g
        | None => GasBig estimate
        end.
Proof.
  intros W a t emitted c recipient units ov Hrun Hin Hkey.
  unfold_transfer_in Hrun.
  destruct (String.eqb_spec (privateKey a) ""); [contradiction |].
  simpl in Hrun.
  destruct (truthy (opt_str (tokenAddress a))); simpl in Hrun.
  all: destruct (tp_gasPrice a) as [price |];
    [destruct (price =? "")%string |]; simpl in Hrun.
  all: destruct (data a) as [text |];
    [destruct (negb (text =? "")%string) |].
  all: repeat next_answer_in Hrun.
  all: emitted_in Hrun; subst emitted.
  all: in_cases.
  all: same_answers.
  all: do 5 eexists; repeat split; eauto;
    solve [ apply nonce_or_spec | apply gasLimit_or_spec ].
Qed.

Lemma transfer_token_overrides_or_defaults_witness :
  exists (p : Provider) (s : Wallet) (fetched estimate : BigNumber)
         (t1 : Trace),
    provider Fake.world Fake.url = Ok p /\
    provider_getGasPrice Fake.world [] p = Ok fetched /\
    new_Wallet Fake.world (Some "0x01") (Some p) = Ok s /\
    contract_estimateGas_transfer Fake.world t1
      (Sample.token_contract (BySigner Sample.signer)) "0xb0b" (2 * 10 ^ 18)
    = Ok estimate /\
    20 * 10 ^ 9 = fetched /\
    NoncePromise (Ok 7)
    = NoncePromise
        (provider_getTransactionCount Fake.world ([] ++ [EGetGasPrice p]) p
           (wallet_address s)) /\
    GasBig 52000 = GasBig estimate.
Proof.
  apply (@transfer_token_overrides_or_defaults Fake.world
           Sample.plain_token_transfer []
           (snd (transfer Fake.world Sample.plain_token_transfer []))
           (Sample.token_contract (BySigner Sample.signer))
           "0xb0b" (2 * 10 ^ 18)
           {| ov_gasPrice := 20 * 10 ^ 9; ov_nonce := NoncePromise (Ok 7);
              ov_gasLimit := GasBig 52000 |}).
  - reflexivity.
  - vm_compute. do 4 right. left. reflexivity.
  - discriminate.
Defined.

(** X9. The request of a native transfer, field by field.  With a signing
    key, it is sent from the wallet made of that key on the provider, to
    the recipient of the payload, for the payload's amount parsed as ether;
    gas price and nonce follow the same override-or-default rule as on the
    token path; [data] is the caller's text, hex-encoded, when it is given
    and not empty, and ["0x"] otherwise. *)
Theorem transfer_native_request :
  forall (W : World) (a : TransferPayload) (t emitted : Trace)
         (w : Wallet) (req : TransactionRequest),
    snd (transfer W a t) = t ++ emitted ->
    In (ESendTransaction w req) emitted ->
    privateKey a <> "" ->
    exists (p : Provider) (fetched : BigNumber),
      provider W (rpcUrl a) = Ok p /\
      provider_getGasPrice W t p = Ok fetched /\
      new_Wallet W (Some (privateKey a)) (Some p) = Ok w /\
      tr_to req = recipientAddress a /\
      parseEther W (Number_toString W (amount a)) = Ok (tr_value req) /\
      match tp_gasPrice a with
      | Some price =>
          if (price =? "")%string then tr_gasPrice req = fetched
          else parseUnits W price (UnitName "gwei") = Ok (tr_gasPrice req)
      | None => tr_gasPrice req = fetched
      end /\
      tr_nonce req
      = match tp_nonce a with
        | Some n =>
            if n =? 0
            then NoncePromise
                   (provider_getTransactionCount W (t ++ [EGetGasPrice p]) p
                      (wallet_address w))
            else NonceNumber n
        | None =>
            NoncePromise
              (provider_getTransactionCount W (t ++ [EGetGasPrice p]) p
                 (wallet_address w))
        end /\
      match data a with
      | Some text =>
          if (text =? "")%string then tr_data req = "0x"
          else hexlify_toUtf8Bytes W text = Ok (tr_data req)
      | None => tr_data req = "0x"
      end.
Proof.
  intros W a t emitted w req Hrun Hin Hkey.
  unfold_transfer_in Hrun.
  destruct (String.eqb_spec (privateKey a) ""); [contradiction |].
  simpl in Hrun.
  destruct (truthy (opt_str (tokenAddress a))); simpl in Hrun.
  all: destruct (tp_gasPrice a) as [price |];
    [destruct (price =? "")%string |]; simpl in Hrun.
  all: destruct (data a) as [text |];
    [destruct (text =? "")%string |]; simpl in Hrun.
  all: repeat next_answer_in Hrun.
  all: emitted_in Hrun; subst emitted.
  all: in_cases.
  all: same_answers.
  all: do 2 eexists; repeat split; eauto; apply nonce_or_spec.
Qed.

Lemma transfer_native_request_witness :
  exists (p : Provider) (fetched : BigNumber),
    provider Fake.world Fake.url = Ok p /\
    provider_getGasPrice Fake.world [] p = Ok fetched /\
    new_Wallet Fake.world (Some "0x01") (Some p) = Ok Sample.signer /\
    "0xb0b" = recipientAddress Fake.native_transfer /\
    parseEther Fake.world
      (Number_toString Fake.world (amount Fake.native_transfer))
    = Ok (2 * 10 ^ 18) /\
    parseUnits Fake.world "5" (UnitName "gwei") = Ok (5 * 10 ^ 9) /\
    NonceNumber 3 = NonceNumber 3 /\
    hexlify_toUtf8Bytes Fake.world "hello" = Ok "0xhello".
Proof.
  apply (@transfer_native_request Fake.world Fake.native_transfer []
           (snd (transfer Fake.world Fake.native_transfer []))
           Sample.signer
           {| tr_to := "0xb0b"; tr_value := 2 * 10 ^ 18;
              tr_gasPrice := 5 * 10 ^ 9; tr_nonce := NonceNumber 3;
              tr_data := "0xhello" |}).
  - reflexivity.
  - vm_compute. do 2 right. left. reflexivity.
  - discriminate.
Defined.

(** ** Contract calls, in full *)

(** X10. [smartContractSend] reads neither the [value] nor the [nonce] of
    its payload: no value is put in the transaction, and the nonce is
    always the one the node gives. *)
Theorem smartContractSend_ignores_value_and_nonce :
  forall (W : World) (args : ISmartContractCallPayload) (v n : option Z)
         (t : Trace),
    smartContractSend W (with_value v (with_sc_nonce n args)) t
    = smartContractSend W args t.
Proof. intros W [] v n t. reflexivity. Qed.

Ltac unfold_send_in H :=
  unfold smartContractSend, try_rethrow, bind, lift, call, start, bind, lift,
    request, ret, throw in H;
  simpl in H.

(** X11. A [smartContractSend] that resolves has done exactly five things,
    in this order: posted [eth_estimateGas], posted
    [eth_getTransactionCount], built the transaction, signed it with the
    bytes of the private key, and posted as [eth_sendRawTransaction] the
    serialization of the signed transaction, in hex after ["0x"].  It
    resolves with the hash the node answered to that last post. *)
Theorem smartContractSend_resolved_run :
  forall (W : World) (args : ISmartContractCallPayload) (t t' : Trace)
         (r : Response Value),
    smartContractSend W args t = (Resolved r, t') ->
    exists (wallet : Wallet) (callData : string) (d : TxData) (c : Common)
           (tx signedTx : Tx) (key : Buffer) (t3 : Trace),
      let url := sc_rpcUrl args in
      let raw :=
        sendRawTransaction_body
          (String.append "0x"
             (Buffer_toString_hex W (tx_serialize W signedTx))) in
      new_Wallet W (sc_privateKey args) None = Ok wallet /\
      Transaction_fromTxData W d c = Ok tx /\
      Buffer_from_hex W (sc_privateKey args) = Ok key /\
      tx_sign W tx key = Ok signedTx /\
      t3 = t ++ [EPost url
                   (estimateGas_body (wallet_address wallet)
                      (sc_contractAddress args) callData);
                 EPost url (getTransactionCount_body (wallet_address wallet));
                 EFromTxData d c;
                 ESign tx key] /\
      t' = t3 ++ [EPost url raw] /\
      request W url raw t3 = (Resolved (payload r), t') /\
      success r = true.
Proof.
  intros W args t t' r H.
  unfold_send_in H.
  repeat next_answer_in H.
  all: try discriminate H.
  all: injection H as <- <-.
  all: do 8 eexists; cbv zeta; repeat split; eauto.
  all: unfold request; repeat rewrite <- app_assoc; simpl; try reflexivity.
  all: repeat match goal with
      | H : axios_post _ _ _ _ = _ |- _ =>
          repeat rewrite <- app_assoc in H; simpl in H; rewrite H
      end;
    repeat match goal with
      | H : request_settle _ = _ |- _ => rewrite H
      end;
    reflexivity.
Qed.

Lemma smartContractSend_resolved_run_witness :
  exists (wallet : Wallet) (callData : string) (d : TxData) (c : Common)
         (tx signedTx : Tx) (key : Buffer) (t3 : Trace),
    new_Wallet Fake.world (Some "0x01") None = Ok wallet /\
    Transaction_fromTxData Fake.world d c = Ok tx /\
    Buffer_from_hex Fake.world (Some "0x01") = Ok key /\
    tx_sign Fake.world tx key = Ok signedTx /\
    t3 = [] ++ [EPost Fake.url
                  (estimateGas_body (wallet_address wallet) "0x70ce" callData);
                EPost Fake.url
                  (getTransactionCount_body (wallet_address wallet));
                EFromTxData d c;
                ESign tx key] /\
    snd (smartContractSend Fake.world Fake.contract_call [])
    = t3 ++ [EPost Fake.url
               (sendRawTransaction_body
                  (String.append "0x"
                     (Buffer_toString_hex Fake.world
                        (tx_serialize Fake.world signedTx))))] /\
    request Fake.world Fake.url
      (sendRawTransaction_body
         (String.append "0x"
            (Buffer_toString_hex Fake.world
               (tx_serialize Fake.world signedTx)))) t3
    = (Resolved (VStr "0x88df01"),
       snd (smartContractSend Fake.world Fake.contract_call [])) /\
    true = true.
Proof.
  apply (@smartContractSend_resolved_run Fake.world Fake.contract_call []
           (snd (smartContractSend Fake.world Fake.contract_call []))
           (successResponse (VStr "0x88df01"))).
  reflexivity.
Defined.

(** X12. Nothing is broadcast that was not signed.  In any run of
    [smartContractSend], resolved or not, there is at most one post of
    [eth_sendRawTransaction]; it goes to the [rpcUrl] of the payload, after
    the transaction was built and signed with the bytes of the payload's
    private key, and what it carries is the serialization of that signed
    transaction. *)
Theorem smartContractSend_broadcasts_only_signed :
  forall (W : World) (args : ISmartContractCallPayload) (t emitted : Trace),
    snd (smartContractSend W args t) = t ++ emitted ->
    (length (filter is_broadcast emitted) <= 1)%nat /\
    forall (url : string) (body : RpcBody),
      In (EPost url body) emitted ->
      method body = "eth_sendRawTransaction" ->
      exists (d : TxData) (c : Common) (tx signedTx : Tx) (key : Buffer),
        url = sc_rpcUrl args /\
        In (EFromTxData d c) emitted /\
        Transaction_fromTxData W d c = Ok tx /\
        Buffer_from_hex W (sc_privateKey args) = Ok key /\
        In (ESign tx key) emitted /\
        tx_sign W tx key = Ok signedTx /\
        body = sendRawTransaction_body
                 (String.append "0x"
                    (Buffer_toString_hex W (tx_serialize W signedTx))).
Proof.
  intros W args t emitted Hrun.
  unfold_send_in Hrun.
  repeat next_answer_in Hrun.
  all: emitted_in Hrun; subst emitted.
  all: split; [simpl; lia |].
  all: intros url body Hin Hmethod; in_cases; try discriminate Hmethod.
  all: do 5 eexists; repeat split; eauto 10.
Qed.

Lemma smartContractSend_broadcasts_only_signed_witness :
  (length (filter is_broadcast
             (snd (smartContractSend Fake.world Fake.contract_call [])))
   <= 1)%nat /\
  forall (url : string) (body : RpcBody),
    In (EPost url body)
      (snd (smartContractSend Fake.world Fake.contract_call [])) ->
    method body = "eth_sendRawTransaction" ->
    exists (d : TxData) (c : Common) (tx signedTx : Tx) (key : Buffer),
      url = Fake.url /\
      In (EFromTxData d c)
        (snd (smartContractSend Fake.world Fake.contract_call [])) /\
      Transaction_fromTxData Fake.world d c = Ok tx /\
      Buffer_from_hex Fake.world (Some "0x01") = Ok key /\
      In (ESign tx key)
        (snd (smartContractSend Fake.world Fake.contract_call [])) /\
      tx_sign Fake.world tx key = Ok signedTx /\
      body = sendRawTransaction_body
               (String.append "0x"
                  (Buffer_toString_hex Fake.world
                     (tx_serialize Fake.world signedTx))).
Proof.
  apply (@smartContractSend_broadcasts_only_signed Fake.world
           Fake.contract_call []
           (snd (smartContractSend Fake.world Fake.contract_call []))).
  reflexivity.
Defined.

(** X13. A request that never settles stalls the whole call: when the post
    of [eth_estimateGas], or after it the post of
    [eth_getTransactionCount], is left unsettled by [request] (a body with
    neither result nor error, or a failed HTTP exchange),
    [smartContractSend] never settles either, and takes no further step. *)
Theorem smartContractSend_stalls_on_unsettled_request :
  forall (W : World) (args : ISmartContractCallPayload) (t : Trace)
         (abiInterface : Abi) (wallet : Wallet) (callData : string),
    new_Interface W
      match sc_contractAbi args with
      | Some abi => abi
      | None => erc20Abi W
      end = Ok abiInterface ->
    new_Wallet W (sc_privateKey args) None = Ok wallet ->
    encodeFunctionData W abiInterface (sc_method args) (sc_params args)
    = Ok callData ->
    let estimate :=
      estimateGas_body (wallet_address wallet) (sc_contractAddress args)
        callData in
    let count := getTransactionCount_body (wallet_address wallet) in
    (forall t1,
        request W (sc_rpcUrl args) estimate t = (Pending, t1) ->
        smartContractSend W args t
        = (Pending, t ++ [EPost (sc_rpcUrl args) estimate])) /\
    (forall v t1 t2,
        request W (sc_rpcUrl args) estimate t = (Resolved v, t1) ->
        request W (sc_rpcUrl args) count t1 = (Pending, t2) ->
        smartContractSend W args t
        = (Pending, t ++ [EPost (sc_rpcUrl args) estimate;
                          EPost (sc_rpcUrl args) count])).
Proof.
  intros W args t abiInterface wallet callData Habi Hwallet Hdata estimate
    count.
  split.
  - intros t1 Hest. unfold smartContractSend, try_rethrow.
    erewrite bind_resolved by (apply lift_ok; exact Habi).
    erewrite bind_resolved by (apply lift_ok; exact Hwallet).
    erewrite bind_resolved by (apply lift_ok; exact Hdata).
    unfold bind at 1. fold estimate. rewrite Hest.
    f_equal. pose proof (request_trace W (sc_rpcUrl args) estimate t) as Htr.
    rewrite Hest in Htr. exact Htr.
  - intros v t1 t2 Hest Hcount. unfold smartContractSend, try_rethrow.
    erewrite bind_resolved by (apply lift_ok; exact Habi).
    erewrite bind_resolved by (apply lift_ok; exact Hwallet).
    erewrite bind_resolved by (apply lift_ok; exact Hdata).
    fold estimate. erewrite bind_resolved by exact Hest.
    unfold bind at 1. fold count. rewrite Hcount.
    f_equal.
    pose proof (request_trace W (sc_rpcUrl args) estimate t) as Htr1.
    rewrite Hest in Htr1. simpl in Htr1.
    pose proof (request_trace W (sc_rpcUrl args) count t1) as Htr2.
    rewrite Hcount in Htr2. simpl in Htr2. subst t1 t2.
    now rewrite <- app_assoc.
Qed.

Lemma smartContractSend_stalls_on_unsettled_request_witness :
  smartContractSend (Fake.world_over Fake.silent) Fake.contract_call []
  = (Pending,
     [] ++ [EPost Fake.url (estimateGas_body "0x5167" "0x70ce" "0xapprove")]).
Proof.
  apply (proj1 (@smartContractSend_stalls_on_unsettled_request
           (Fake.world_over Fake.silent) Fake.contract_call []
           (erc20Abi Fake.world)
           {| wallet_address := "0x5167"; wallet_privateKey := "0x01";
              wallet_mnemonic := None; wallet_provider := None |}
           "0xapprove" eq_refl eq_refl eq_refl)
         [EPost Fake.url (estimateGas_body "0x5167" "0x70ce" "0xapprove")]).
  reflexivity.
Defined.

(** ** Transactions, wallets and keystores *)



Section Keystore.

Variable W : World.

(** What the library is relied on for: the keystore a wallet made of a
    private key encrypts to, decrypted with the same password, gives a
    wallet of the same address and key. *)
Hypothesis encrypt_fromEncryptedJson :
  forall (t : Trace) (key password json : string) (w : Wallet),
    new_Wallet W (Some key) None = Ok w ->
    wallet_encrypt W t w password = Ok json ->
    exists w' : Wallet,
      Wallet_fromEncryptedJson W json password = Ok w' /\
      wallet_address w' = wallet_address w /\
      wallet_privateKey w' = wallet_privateKey w.

(** X15. The keystore [getEncryptedJsonFromPrivateKey] returns for a key
    and a password, given to [getWalletFromEncryptedJson] with that
    password, resolves with the private key of the wallet of that key and
    with the address [getAddressFromPrivateKey] gives for it; the
    [network] of the three payloads plays no part. *)
Theorem keystore_roundtrip :
  forall (key password n1 n2 n3 : string) (t t' : Trace)
         (r : Response string),
    getEncryptedJsonFromPrivateKey W
      {| ge_password := password; ge_privateKey := key; ge_network := n1 |} t
    = (Resolved r, t') ->
    forall t2 : Trace,
    exists w : Wallet,
      new_Wallet W (Some key) None = Ok w /\
      t' = t ++ [EEncrypt w password] /\
      getWalletFromEncryptedJson W
        {| gw_json := payload r; gw_password := password; gw_network := n2 |}
        t2
      = (Resolved (successResponse
                     {| ka_privateKey := wallet_privateKey w;
                        ka_address := wallet_address w |}), t2) /\
      getAddressFromPrivateKey W
        {| ga_privateKey := key; ga_network := n3 |} t2
      = (Resolved (successResponse (wallet_address w)), t2).
Proof.
  intros key password n1 n2 n3 t t' r H t2.
  unfold getEncryptedJsonFromPrivateKey, bind, lift, call, start, bind, lift,
    ret, throw in H.
  simpl in H.
  destruct (new_Wallet W (Some key) None) as [w | e] eqn:Hw; simpl in H;
    [| discriminate].
  destruct (wallet_encrypt W t w password) as [json | e] eqn:Hjson;
    simpl in H; [| discriminate].
  injection H as <- <-.
  destruct (encrypt_fromEncryptedJson t key password Hw Hjson)
    as (w' & Hfrom & Haddr & Hkey).
  exists w. split; [reflexivity |]. split; [reflexivity |]. split.
  - unfold getWalletFromEncryptedJson, bind, lift, ret. simpl.
    rewrite Hfrom. simpl. now rewrite Haddr, Hkey.
  - unfold getAddressFromPrivateKey, bind, lift, ret. simpl.
    now rewrite Hw.
Qed.

End Keystore.

Lemma fake_encrypt_fromEncryptedJson :
  forall (t : Trace) (key password json : string) (w : Wallet),
    new_Wallet Fake.world (Some key) None = Ok w ->
    wallet_encrypt Fake.world t w password = Ok json ->
    exists w' : Wallet,
      Wallet_fromEncryptedJson Fake.world json password = Ok w' /\
      wallet_address w' = wallet_address w /\
      wallet_privateKey w' = wallet_privateKey w.
Proof.
  intros t key password json w Hw Hjson. simpl in *.
  unfold Fake.make_wallet in *.
  destruct (key =? "")%string eqn:Hkey; [discriminate |].
  injection Hw as <-. simpl in Hjson. injection Hjson as <-.
  rewrite Hkey. eexists. repeat split.
Defined.

Lemma keystore_roundtrip_witness :
  exists w : Wallet,
    new_Wallet Fake.world (Some "0x01") None = Ok w /\
    [EEncrypt (Build_Wallet "0x5167" "0x01" None None) "secret"]
    = [] ++ [EEncrypt w "secret"] /\
    getWalletFromEncryptedJson Fake.world
      {| gw_json := "0x01"; gw_password := "secret";
         gw_network := "ethereum" |} []
    = (Resolved (successResponse
                   {| ka_privateKey := wallet_privateKey w;
                      ka_address := wallet_address w |}), []) /\
    getAddressFromPrivateKey Fake.world
      {| ga_privateKey := "0x01"; ga_network := "bitcoin" |} []
    = (Resolved (successResponse (wallet_address w)), []).
Proof.
  apply (@keystore_roundtrip Fake.world fake_encrypt_fromEncryptedJson
           "0x01" "secret" "solana" "ethereum" "bitcoin" []
           [EEncrypt (Build_Wallet "0x5167" "0x01" None None) "secret"]
           (successResponse "0x01") eq_refl []).
Defined.
